(** * Optimize: bracketing line searches and first-order descent methods

    A shallow embedding of [src/optimize.py] (class [Optimize]): the three
    line searches [binary_search], [golden_search], [parabolic_search] and the
    two descent drivers [gradient_descent], [steepest_gradient_descent].

    Numbers.  The Python code computes on floats and numpy arrays and never
    looks at their representation, so the embedding is written once over an
    interface of scalar operations ([Scalar]) and of vector operations
    ([Vector]), and the statements hold of every instance unless they name
    one.  Two instances are given: IEEE binary64 ([PrimFloat]), which is
    what a Python float is and on which the definitions run, and the real
    numbers, which have the properties of [<=], [+], [-] and [/] that the
    statements about brackets take as hypotheses.

    Loops.  [for _ in range(max_steps)] runs [Z.to_nat max_steps] times (an
    empty range for a non-positive [max_steps]); every loop is a structural
    [Fixpoint] on that count, with [break] as an early exit. *)

From Stdlib Require Import String ZArith List Bool Lia.
From Stdlib Require Import Reals Lra.
From Stdlib Require PrimFloat Uint63.
Import ListNotations.

Set Implicit Arguments.

(** ** Outcome of a call *)

(** A Python call either returns a value or raises.  [ZeroDivisionError]
    (float division by zero) and [OverflowError] (float power out of range)
    are what the arithmetic of [parabolic_search] can raise on Python floats;
    [PreconditionViolation] is the error named by the specification for
    invalid arguments. *)
Inductive exn : Type :=
| ZeroDivisionError
| OverflowError
| PreconditionViolation.

Inductive outcome (A : Type) : Type :=
| Returned (v : A)
| Raised (e : exn).

Arguments Returned {A} v.
Arguments Raised {A} e.

Definition bind {A B : Type} (m : outcome A) (k : A -> outcome B) : outcome B :=
  match m with
  | Returned v => k v
  | Raised e => Raised e
  end.

Notation "x <- m ;; k" := (bind m (fun x => k))
  (at level 61, m at next level, right associativity).

(** ** Scalars and vectors *)

(** The operations the source applies to its scalar arguments: literals,
    [+ - * /], [abs], [np.sqrt], the comparisons [<=], [<], [==], and the
    test for an infinite value behind the range check of float power. *)
Class Scalar (F : Type) : Type := {
  s_of_Z : Z -> F;
  s_add : F -> F -> F;
  s_sub : F -> F -> F;
  s_mul : F -> F -> F;
  s_div : F -> F -> F;
  s_abs : F -> F;
  s_sqrt : F -> F;
  s_leb : F -> F -> bool;
  s_ltb : F -> F -> bool;
  s_eqb : F -> F -> bool;
  s_is_inf : F -> bool
}.

Declare Scope scalar_scope.
Delimit Scope scalar_scope with S.
Notation "a + b" := (s_add a b) : scalar_scope.
Notation "a - b" := (s_sub a b) : scalar_scope.
Notation "a * b" := (s_mul a b) : scalar_scope.
Notation "a / b" := (s_div a b) : scalar_scope.
Notation "a <=? b" := (s_leb a b) : scalar_scope.
Notation "a >? b" := (s_ltb b a) : scalar_scope.
Notation "# z" := (s_of_Z z) (at level 5, format "# z") : scalar_scope.

(** [v ** 2] on numpy floats, where it never raises. *)
Definition s_sq {F} `{Scalar F} (v : F) : F := (v * v)%S.

(** [v ** 2] on Python floats: an infinite result from a finite [v] raises. *)
Definition py_sq {F} `{Scalar F} (v : F) : outcome F :=
  if s_is_inf (s_sq v) && negb (s_is_inf v) then Raised OverflowError
  else Returned (s_sq v).

(** Python's float division: a zero divisor raises. *)
Definition py_div {F} `{Scalar F} (n d : F) : outcome F :=
  if s_eqb d (s_of_Z 0) then Raised ZeroDivisionError else Returned (n / d)%S.

(** The operations the descent drivers apply to their iterate [x]:
    [x - y] and [alpha * y] (numpy broadcasting of a scalar). *)
Class Vector (F V : Type) : Type := {
  v_sub : V -> V -> V;
  v_scale : F -> V -> V
}.

(** ** Result record *)

Module OptimizeResults.

(** Modelled from the spec: the class [OptimizeResults] (module
    [optimize_results]) is imported by [optimize.py] but is not part of the
    sources; its fields are those of the Result record of the specification,
    under the keyword names the constructor calls in [optimize.py] use.
    [fun_] stands for the keyword [fun]; [trajectory] is the attribute set
    after construction when [trajectory_flag] holds. *)
Record t (F X J : Type) : Type := mk {
  success : bool;
  message : string;
  fun_ : F;
  jac : option J;
  nfev : nat;
  njev : nat;
  nhev : nat;
  nit : nat;
  x : X;
  trajectory : option (list X)
}.

End OptimizeResults.

(** ** The class [Optimize] *)

Module Optimize.

Section LineSearch.

Context {F : Type} `{Scalar F}.
Local Open Scope scalar_scope.

(** *** [binary_search] *)

(** The local variables of [binary_search] that live across iterations. *)
Record bs_state : Type := mk_bs {
  bs_success : bool;
  bs_nfev : nat;
  bs_njev : nat;
  bs_nit : nat;
  bs_a : F;
  bs_b : F;
  bs_c : F
}.

Definition bs_init (a b : F) : bs_state :=
  mk_bs false 0 0 0 a b ((a + b) / #2).

(** The test of the [if ... break] that opens the loop body. *)
Definition bs_stop (accuracy : F) (s : bs_state) : bool :=
  s_abs (bs_b s - bs_a s) <=? accuracy.

(** One pass through the loop body after the test. *)
Definition bs_body (f : F -> F) (s : bs_state) : bs_state :=
  let a := bs_a s in
  let b := bs_b s in
  let c := bs_c s in
  let nit := S (bs_nit s) in
  let y := (a + c) / #2 in
  let nfev := (bs_nfev s + 2)%nat in
  if f y <=? f c then
    mk_bs (bs_success s) nfev (bs_njev s) nit a c y
  else
    let nfev := (nfev + 2)%nat in
    let z := (b + c) / #2 in
    if f c <=? f z then
      mk_bs (bs_success s) nfev (bs_njev s) nit y z c
    else
      mk_bs (bs_success s) nfev (bs_njev s) nit c b z.

Fixpoint bs_loop (f : F -> F) (accuracy : F) (steps : nat) (s : bs_state)
  : bs_state :=
  match steps with
  | O => s
  | S steps' =>
      if bs_stop accuracy s then
        mk_bs true (bs_nfev s) (bs_njev s) (bs_nit s) (bs_a s) (bs_b s) (bs_c s)
      else bs_loop f accuracy steps' (bs_body f s)
  end.

Definition binary_search (f : F -> F) (a b accuracy : F) (max_steps : Z)
  : OptimizeResults.t F F F :=
  let s := bs_loop f accuracy (Z.to_nat max_steps) (bs_init a b) in
  OptimizeResults.mk (bs_success s) "" (f (bs_c s)) None
    (bs_nfev s) (bs_njev s) 0 (bs_nit s) (bs_c s) None.

(** *** [golden_search] *)

Definition tau : F := (s_sqrt #5 + #1) / #2.

Record gs_state : Type := mk_gs {
  gs_success : bool;
  gs_nfev : nat;
  gs_njev : nat;
  gs_nit : nat;
  gs_a : F;
  gs_b : F;
  gs_y : F;
  gs_z : F
}.

Definition gs_init (a b : F) : gs_state :=
  mk_gs false 0 0 0 a b (a + (b - a) / s_sq tau) (a + (b - a) / tau).

Definition gs_stop (accuracy : F) (s : gs_state) : bool :=
  gs_b s - gs_a s <=? accuracy.

Definition gs_body (f : F -> F) (s : gs_state) : gs_state :=
  let a := gs_a s in
  let b := gs_b s in
  let y := gs_y s in
  let z := gs_z s in
  let nit := S (gs_nit s) in
  let nfev := (gs_nfev s + 2)%nat in
  if f y <=? f z then
    let b := z in
    let z := y in
    let y := a + (b - a) / s_sq tau in
    mk_gs (gs_success s) nfev (gs_njev s) nit a b y z
  else
    let a := y in
    let y := z in
    let z := a + (b - a) / tau in
    mk_gs (gs_success s) nfev (gs_njev s) nit a b y z.

Fixpoint gs_loop (f : F -> F) (accuracy : F) (steps : nat) (s : gs_state)
  : gs_state :=
  match steps with
  | O => s
  | S steps' =>
      if gs_stop accuracy s then
        mk_gs true (gs_nfev s) (gs_njev s) (gs_nit s)
          (gs_a s) (gs_b s) (gs_y s) (gs_z s)
      else gs_loop f accuracy steps' (gs_body f s)
  end.

Definition golden_search (f : F -> F) (a b accuracy : F) (max_steps : Z)
  : OptimizeResults.t F F F :=
  let s := gs_loop f accuracy (Z.to_nat max_steps) (gs_init a b) in
  let x_opt := (gs_a s + gs_b s) / #2 in
  OptimizeResults.mk (gs_success s) "" (f x_opt) None
    (gs_nfev s) (gs_njev s) 0 (gs_nit s) x_opt None.

(** *** [parabolic_search] *)

Record ps_state : Type := mk_ps {
  ps_success : bool;
  ps_nfev : nat;
  ps_njev : nat;
  ps_nit : nat;
  ps_x1 : F;
  ps_x2 : F;
  ps_x3 : F;
  ps_f1 : F;
  ps_f2 : F;
  ps_f3 : F
}.

Definition ps_init (f : F -> F) (a b : F) : ps_state :=
  let x1 := a in
  let x3 := b in
  let x2 := (a + b) / #2 in
  mk_ps false 0 0 0 x1 x2 x3 (f x1) (f x2) (f x3).

(** The test of the [if ... break] of [parabolic_search]:
    [x3 - x1 > accuracy]. *)
Definition ps_break (accuracy : F) (s : ps_state) : bool :=
  ps_x3 s - ps_x1 s >? accuracy.

Definition ps_body (f : F -> F) (s : ps_state) : outcome ps_state :=
  let x1 := ps_x1 s in
  let x2 := ps_x2 s in
  let x3 := ps_x3 s in
  let f1 := ps_f1 s in
  let f2 := ps_f2 s in
  let f3 := ps_f3 s in
  sq1 <- py_sq (x2 - x1) ;;
  sq3 <- py_sq (x2 - x3) ;;
  q <- py_div
         (sq1 * (f2 - f3) - sq3 * (f2 - f1))
         (#2 * ((x2 - x1) * (f2 - f3) - (x2 - x3) * (f2 - f1))) ;;
  let u := x2 - q in
  let fu := f u in
  let nit := S (ps_nit s) in
  let nfev := (ps_nfev s + 1)%nat in
  Returned
    (if x2 <=? u then
       if f2 <=? fu then
         mk_ps (ps_success s) nfev (ps_njev s) nit x1 x2 u f1 f2 fu
       else
         mk_ps (ps_success s) nfev (ps_njev s) nit x2 u x3 f2 fu f3
     else
       if fu <=? f2 then
         mk_ps (ps_success s) nfev (ps_njev s) nit x1 u x2 f1 fu f2
       else
         mk_ps (ps_success s) nfev (ps_njev s) nit u x2 x3 fu f2 f3).

Fixpoint ps_loop (f : F -> F) (accuracy : F) (steps : nat) (s : ps_state)
  : outcome ps_state :=
  match steps with
  | O => Returned s
  | S steps' =>
      if ps_break accuracy s then Returned s
      else s' <- ps_body f s ;; ps_loop f accuracy steps' s'
  end.

Definition parabolic_search (f : F -> F) (a b accuracy : F) (max_steps : Z)
  : outcome (OptimizeResults.t F F F) :=
  s <- ps_loop f accuracy (Z.to_nat max_steps) (ps_init f a b) ;;
  let x_opt := (ps_x1 s + ps_x3 s) / #2 in
  Returned (OptimizeResults.mk (ps_success s) "" (f x_opt) None
              (ps_nfev s) (ps_njev s) 0 (ps_nit s) x_opt None).

End LineSearch.

Section Descent.

Context {F V : Type} `{Scalar F} `{Vector F V}.
Local Open Scope scalar_scope.

(** The local variables of the two descent drivers. *)
Record gd_state : Type := mk_gd {
  gd_trajectory : list V;
  gd_x : V;
  gd_success : bool;
  gd_nfev : nat;
  gd_njev : nat;
  gd_nit : nat
}.

Definition gd_init (x0 : V) : gd_state := mk_gd [] x0 false 0 0 0.

(** [if trajectory_flag: trajectory.append(x)] *)
Definition gd_record (trajectory_flag : bool) (s : gd_state) : gd_state :=
  if trajectory_flag then
    mk_gd (gd_trajectory s ++ [gd_x s]) (gd_x s) (gd_success s)
      (gd_nfev s) (gd_njev s) (gd_nit s)
  else s.

(** [accept_test and accept_test(df, x, accuracy)], where [accept_test] is
    [None] or a callable. *)
Definition accepted (accept_test : option ((V -> V) -> V -> F -> bool))
  (df : V -> V) (x : V) (accuracy : F) : bool :=
  match accept_test with
  | None => false
  | Some test => test df x accuracy
  end.

(** *** [gradient_descent] *)

(** [x - step_size * df(x)] *)
Definition gd_step (df : V -> V) (step_size : F) (x : V) : V :=
  v_sub x (v_scale step_size (df x)).

Definition gd_update (df : V -> V) (step_size : F) (s : gd_state) : gd_state :=
  mk_gd (gd_trajectory s) (gd_step df step_size (gd_x s)) (gd_success s)
    (gd_nfev s) (S (gd_njev s)) (S (gd_nit s)).

Fixpoint gd_loop (df : V -> V) (step_size accuracy : F) (trajectory_flag : bool)
  (accept_test : option ((V -> V) -> V -> F -> bool))
  (steps : nat) (s : gd_state) : gd_state :=
  match steps with
  | O => s
  | S steps' =>
      let s := gd_record trajectory_flag s in
      if accepted accept_test df (gd_x s) accuracy then
        mk_gd (gd_trajectory s) (gd_x s) true (gd_nfev s) (gd_njev s) (gd_nit s)
      else
        gd_loop df step_size accuracy trajectory_flag accept_test steps'
          (gd_update df step_size s)
  end.

(** The record built after the loop, with the [trajectory] attribute set
    when [trajectory_flag] holds. *)
Definition gd_result (f : V -> F) (df : V -> V) (trajectory_flag : bool)
  (s : gd_state) : OptimizeResults.t F V V :=
  OptimizeResults.mk (gd_success s) "" (f (gd_x s)) (Some (df (gd_x s)))
    (gd_nfev s) (gd_njev s) 0 (gd_nit s) (gd_x s)
    (if trajectory_flag then Some (gd_trajectory s) else None).

Definition gradient_descent (f : V -> F) (df : V -> V) (x0 : V)
  (step_size : F) (max_steps : Z) (accuracy : F) (trajectory_flag : bool)
  (accept_test : option ((V -> V) -> V -> F -> bool))
  : OptimizeResults.t F V V :=
  gd_result f df trajectory_flag
    (gd_loop df step_size accuracy trajectory_flag accept_test
       (Z.to_nat max_steps) (gd_init x0)).

(** *** [steepest_gradient_descent] *)

(** The default [accuracy] of [golden_search], [1e-5]. *)
Definition default_accuracy : F := #1 / #100000.

(** [grad = df(x)], the inner [golden_search] over [alpha] in [0, 1] and
    [x - step_size.x * grad]. *)
Definition sgd_step (f : V -> F) (df : V -> V) (x : V) : V :=
  let grad := df x in
  let step_size :=
    golden_search (fun alpha => f (v_sub x (v_scale alpha grad)))
      #0 #1 default_accuracy 1000 in
  v_sub x (v_scale (OptimizeResults.x step_size) grad).

Definition sgd_update (f : V -> F) (df : V -> V) (s : gd_state) : gd_state :=
  mk_gd (gd_trajectory s) (sgd_step f df (gd_x s)) (gd_success s)
    (gd_nfev s) (S (gd_njev s)) (S (gd_nit s)).

Fixpoint sgd_loop (f : V -> F) (df : V -> V) (accuracy : F)
  (trajectory_flag : bool)
  (accept_test : option ((V -> V) -> V -> F -> bool))
  (steps : nat) (s : gd_state) : gd_state :=
  match steps with
  | O => s
  | S steps' =>
      let s := gd_record trajectory_flag s in
      if accepted accept_test df (gd_x s) accuracy then
        mk_gd (gd_trajectory s) (gd_x s) true (gd_nfev s) (gd_njev s) (gd_nit s)
      else
        sgd_loop f df accuracy trajectory_flag accept_test steps'
          (sgd_update f df s)
  end.

Definition steepest_gradient_descent (f : V -> F) (df : V -> V) (x0 : V)
  (max_steps : Z) (accuracy : F) (trajectory_flag : bool)
  (accept_test : option ((V -> V) -> V -> F -> bool))
  : OptimizeResults.t F V V :=
  gd_result f df trajectory_flag
    (sgd_loop f df accuracy trajectory_flag accept_test
       (Z.to_nat max_steps) (gd_init x0)).

(** *** The skeleton shared by the two drivers *)

(** Both loops have the same shape and differ in the update of [x] only;
    [descent_loop] is that shape over an arbitrary update [step], used to
    reason about the two loops at once (lemmas [gd_loop_skeleton] and
    [sgd_loop_skeleton]). *)
Fixpoint descent_loop (step : V -> V) (df : V -> V) (accuracy : F)
  (trajectory_flag : bool)
  (accept_test : option ((V -> V) -> V -> F -> bool))
  (steps : nat) (s : gd_state) : gd_state :=
  match steps with
  | O => s
  | S steps' =>
      let s := gd_record trajectory_flag s in
      if accepted accept_test df (gd_x s) accuracy then
        mk_gd (gd_trajectory s) (gd_x s) true (gd_nfev s) (gd_njev s) (gd_nit s)
      else
        descent_loop step df accuracy trajectory_flag accept_test steps'
          (mk_gd (gd_trajectory s) (step (gd_x s)) (gd_success s)
             (gd_nfev s) (S (gd_njev s)) (S (gd_nit s)))
  end.

(** The iterates [x_0 = x0], [x_(k+1) = step x_k]. *)
Definition iterate (step : V -> V) (k : nat) (x0 : V) : V :=
  Nat.iter k step x0.

(** Either of the two drivers, to state what holds of both. *)
Inductive method : Type :=
| Gradient_descent (step_size : F)
| Steepest_gradient_descent.

Definition descent (m : method) (f : V -> F) (df : V -> V) (x0 : V)
  (max_steps : Z) (accuracy : F) (trajectory_flag : bool)
  (accept_test : option ((V -> V) -> V -> F -> bool))
  : OptimizeResults.t F V V :=
  match m with
  | Gradient_descent step_size =>
      gradient_descent f df x0 step_size max_steps accuracy trajectory_flag
        accept_test
  | Steepest_gradient_descent =>
      steepest_gradient_descent f df x0 max_steps accuracy trajectory_flag
        accept_test
  end.

(** The update of [x] made by one iteration of the driver. *)
Definition method_step (m : method) (f : V -> F) (df : V -> V) : V -> V :=
  match m with
  | Gradient_descent step_size => gd_step df step_size
  | Steepest_gradient_descent => sgd_step f df
  end.

(** [accept_test] holds of the iterate [x_k] and of none before it. *)
Definition first_accepted (test : (V -> V) -> V -> F -> bool) (df : V -> V)
  (accuracy : F) (step : V -> V) (x0 : V) (k : nat) : Prop :=
  (forall j, (j < k)%nat -> test df (iterate step j x0) accuracy = false) /\
  test df (iterate step k x0) accuracy = true.

End Descent.

End Optimize.

(** ** Calls made to the caller's functions *)

(** [gradient_descent] once more, this time recording every call it makes
    to one of its callable arguments, in program order.  The computation is
    the one of [Optimize.gradient_descent]; the record of calls is what the
    statements about evaluations of [f] are about. *)
Module Calls.

Import Optimize.

Section Logged.

Context {F V : Type} `{Scalar F} `{Vector F V}.

Inductive call : Type :=
| Call_f (x : V)
| Call_df (x : V)
| Call_accept_test (x : V).

(** A value together with the calls made while computing it. *)
Definition logged (A : Type) : Type := (A * list call)%type.

Definition ret {A : Type} (v : A) : logged A := (v, []).

Definition seq {A B : Type} (m : logged A) (k : A -> logged B) : logged B :=
  let (v, l1) := m in
  let (w, l2) := k v in
  (w, l1 ++ l2).

Notation "v <~ m ;; k" := (seq m (fun v => k))
  (at level 61, m at next level, right associativity).

Definition eval_f (f : V -> F) (x : V) : logged F := (f x, [Call_f x]).

Definition eval_df (df : V -> V) (x : V) : logged V := (df x, [Call_df x]).

(** [accept_test and accept_test(df, x, accuracy)]: no call when
    [accept_test] is [None]. *)
Definition eval_accepted (accept_test : option ((V -> V) -> V -> F -> bool))
  (df : V -> V) (x : V) (accuracy : F) : logged bool :=
  match accept_test with
  | None => ret false
  | Some test => (test df x accuracy, [Call_accept_test x])
  end.

Fixpoint gd_loop_logged (df : V -> V) (step_size accuracy : F)
  (trajectory_flag : bool)
  (accept_test : option ((V -> V) -> V -> F -> bool))
  (steps : nat) (s : gd_state) : logged gd_state :=
  match steps with
  | O => ret s
  | S steps' =>
      let s := gd_record trajectory_flag s in
      stop <~ eval_accepted accept_test df (gd_x s) accuracy ;;
      if stop then
        ret (mk_gd (gd_trajectory s) (gd_x s) true
               (gd_nfev s) (gd_njev s) (gd_nit s))
      else
        g <~ eval_df df (gd_x s) ;;
        gd_loop_logged df step_size accuracy trajectory_flag accept_test steps'
          (mk_gd (gd_trajectory s) (v_sub (gd_x s) (v_scale step_size g))
             (gd_success s) (gd_nfev s) (S (gd_njev s)) (S (gd_nit s)))
  end.

Definition gradient_descent_logged (f : V -> F) (df : V -> V) (x0 : V)
  (step_size : F) (max_steps : Z) (accuracy : F) (trajectory_flag : bool)
  (accept_test : option ((V -> V) -> V -> F -> bool))
  : logged (OptimizeResults.t F V V) :=
  s <~ gd_loop_logged df step_size accuracy trajectory_flag accept_test
         (Z.to_nat max_steps) (gd_init x0) ;;
  fx <~ eval_f f (gd_x s) ;;
  gx <~ eval_df df (gd_x s) ;;
  ret (OptimizeResults.mk (gd_success s) "" fx (Some gx)
         (gd_nfev s) (gd_njev s) 0 (gd_nit s) (gd_x s)
         (if trajectory_flag then Some (gd_trajectory s) else None)).

Definition is_call_f (c : call) : bool :=
  match c with
  | Call_f _ => true
  | _ => false
  end.

(** How many times [f] was called. *)
Definition f_calls (l : list call) : nat := length (filter is_call_f l).

End Logged.

End Calls.

(** ** What the specification asks of invalid arguments *)

Module Spec.

Section Checked.

Context {F : Type} `{Scalar F}.
Local Open Scope scalar_scope.

(** The specification's InvalidInput: a malformed bracket ([a >= b]) or a
    non-positive [max_steps] or [accuracy]. *)
Definition invalid_input (a b accuracy : F) (max_steps : Z) : bool :=
  (b <=? a) || (max_steps <=? 0)%Z || (accuracy <=? #0).

(** A call that fails fast with a precondition violation on invalid
    arguments and otherwise behaves as [call]. *)
Definition fail_fast {A : Type} (a b accuracy : F) (max_steps : Z)
  (call : outcome A) : outcome A :=
  if invalid_input a b accuracy max_steps then Raised PreconditionViolation
  else call.

End Checked.

End Spec.

(** ** Instances *)

(** *** IEEE binary64: Python's [float] *)

Module FloatScalar.

Import PrimFloat.

Definition of_Z (z : Z) : float :=
  match z with
  | Z0 => 0%float
  | Zpos _ => of_uint63 (Uint63.of_Z z)
  | Zneg p => opp (of_uint63 (Uint63.of_Z (Zpos p)))
  end.

#[export] Instance float_scalar : Scalar float := {
  s_of_Z := of_Z;
  s_add := add;
  s_sub := sub;
  s_mul := mul;
  s_div := div;
  s_abs := abs;
  s_sqrt := sqrt;
  s_leb := leb;
  s_ltb := ltb;
  s_eqb := eqb;
  s_is_inf := is_infinity
}.

End FloatScalar.

(** *** Real numbers: the exact-arithmetic reading *)

Module RealScalar.

Definition Rleb (u v : R) : bool := if Rle_dec u v then true else false.
Definition Rltb (u v : R) : bool := if Rlt_dec u v then true else false.
Definition Reqb (u v : R) : bool := if Req_dec_T u v then true else false.

#[export] Instance real_scalar : Scalar R := {
  s_of_Z := IZR;
  s_add := Rplus;
  s_sub := Rminus;
  s_mul := Rmult;
  s_div := Rdiv;
  s_abs := Rabs;
  s_sqrt := sqrt;
  s_leb := Rleb;
  s_ltb := Rltb;
  s_eqb := Reqb;
  s_is_inf := fun _ => false
}.

End RealScalar.

(** *** Vectors: a scalar, and a numpy array as the list of its entries *)

Module Vectors.

#[export] Instance scalar_vector {F : Type} `{Scalar F} : Vector F F := {
  v_sub := s_sub;
  v_scale := s_mul
}.

#[export] Instance array_vector {F : Type} `{Scalar F} : Vector F (list F) := {
  v_sub := fun u v => map (fun p => s_sub (fst p) (snd p)) (combine u v);
  v_scale := fun alpha v => map (s_mul alpha) v
}.

End Vectors.

(** ** The functions of [small_based_tests] *)

Module SmallBasedTests.

Section Fixtures.

Context {F : Type} `{Scalar F}.
Local Open Scope scalar_scope.

(** Python's [sum]: a left fold from [0]. *)
Definition sum (l : list F) : F := fold_left s_add l #0.

(** [f(x) = sum([(x_i - 1)**2 for x_i in x])] *)
Definition f (x : list F) : F := sum (map (fun x_i => s_sq (x_i - #1)) x).

(** [df(x) = np.array([2*(x_i - 1) for x_i in x])] *)
Definition df (x : list F) : list F := map (fun x_i => #2 * (x_i - #1)) x.

(** [accept_test(df, x, eps) = np.linalg.norm(df(x))**2 <= eps] *)
Definition accept_test (df : list F -> list F) (x : list F) (eps : F) : bool :=
  s_sq (s_sqrt (sum (map s_sq (df x)))) <=? eps.

(** A scalar objective with its minimum at 2, [(x - 2)**2]. *)
Definition parabola (x : F) : F := s_sq (x - #2).

End Fixtures.

End SmallBasedTests.

(** ** Brackets and the arithmetic *)

(** *** A bracket on which binary64 overflows *)

Module HugeBracket.

Import PrimFloat.

(** [2.0 ** 1023] and [1.5 * 2.0 ** 1023]: both finite, with [lo < hi];
    their sum is above the largest float. *)
Definition lo : float := 0x1p+1023%float.
Definition hi : float := 0x1.8p+1023%float.

(** [lambda x: x] and [lambda x: x - x]; the second is [0.0] at a finite
    [x] and [nan] at an infinite one. *)
Definition identity (x : float) : float := x.

End HugeBracket.

(** *** What the brackets ask of the arithmetic *)

(** The loops of [binary_search] and [golden_search] handle their scalars
    through [<=], [+], [-] and [/] only.  The properties of these
    operations on which the brackets depend are stated here over any
    scalars, on the values of a bracket [[lo, hi]]. *)
Module Arithmetic.

Import Optimize.

Section Laws.

Context {F : Type} `{Scalar F}.
Local Open Scope scalar_scope.

(** [u <= v] as the source tests it. *)
Definition s_le (u v : F) : Prop := (u <=? v) = true.

(** [u] lies in the bracket [[lo, hi]]. *)
Definition within (lo hi u : F) : Prop := s_le lo u /\ s_le u hi.

(** [<=] is transitive, and reflexive at whatever it compares. *)
Definition ordered : Prop :=
  (forall u v, s_le u v -> s_le u u /\ s_le v v) /\
  (forall u v w, s_le u v -> s_le v w -> s_le u w).

(** The midpoint of two values of the bracket, computed as [(u + v) / 2]
    or as [(v + u) / 2], lies between them. *)
Definition midpoints (lo hi : F) : Prop :=
  forall u v, within lo hi u -> within lo hi v -> s_le u v ->
    within u v ((u + v) / #2) /\ within u v ((v + u) / #2).


(** The points that [golden_search] computes from two values of the
    bracket, [u + (v - u) / tau**2], [u + (v - u) / tau] and [(u + v) / 2],
    stay in the bracket. *)
Definition interior_points (lo hi : F) : Prop :=
  forall u v, within lo hi u -> within lo hi v ->
    within lo hi (u + (v - u) / s_sq tau) /\
    within lo hi (u + (v - u) / tau) /\
    within lo hi ((u + v) / #2).

(** The bracket of [binary_search] lies in [[lo, hi]], with [c] between
    its ends. *)
Definition bs_inside (lo hi : F) (s : bs_state) : Prop :=
  s_le lo (bs_a s) /\ s_le (bs_a s) (bs_c s) /\
  s_le (bs_c s) (bs_b s) /\ s_le (bs_b s) hi.

(** The four points of [golden_search] lie in [[lo, hi]]. *)
Definition gs_inside (lo hi : F) (s : gs_state) : Prop :=
  within lo hi (gs_a s) /\ within lo hi (gs_b s) /\
  within lo hi (gs_y s) /\ within lo hi (gs_z s).


End Laws.

Arguments ordered F {_}.

End Arithmetic.

(** *** The branches of [golden_search] *)

(** The loop body of [golden_search] looks at [f] in the test of its [if]
    only, so whatever [f] is, a run of the loop follows one of the
    sequences of [if] and [else] branches.  [gs_paths node leaf n a b y z]
    goes through all these sequences of length [n] from the points
    [a, b, y, z]: it evaluates [node] at the points reached by every
    sequence shorter than [n] and [leaf] at those reached by every
    sequence of length [n]. *)
Module Branches.

Import Optimize.

Section Golden.

Context {F : Type} `{Scalar F}.
Local Open Scope scalar_scope.

Fixpoint gs_paths (node leaf : F -> F -> F -> F -> bool) (n : nat)
  (a b y z : F) : bool :=
  match n with
  | O => leaf a b y z
  | S n' =>
      node a b y z &&
      (gs_paths node leaf n' a z (a + (z - a) / s_sq tau) y &&
       gs_paths node leaf n' y b z (y + (b - y) / tau))
  end.

(** At the head of a pass of a search started on [[0, 1]]: the width test
    fails, the points are in order inside [[0, 1]], and neither branch
    leaves a wider bracket. *)
Definition unit_node (accuracy : F) (a b y z : F) : bool :=
  negb (b - a <=? accuracy) &&
  (#0 <=? a) && (a <=? y) && (y <=? z) && (z <=? b) && (b <=? #1) &&
  (z - a <=? b - a) && (b - y <=? b - a).

(** Where the search ends: the width test holds, the bracket is inside
    [[0, 1]], and so is its midpoint. *)
Definition unit_leaf (accuracy : F) (a b y z : F) : bool :=
  (b - a <=? accuracy) &&
  (#0 <=? a) && (a <=? b) && (b <=? #1) &&
  (#0 <=? (a + b) / #2) && ((a + b) / #2 <=? #1).

End Golden.

End Branches.

(** *** The golden bracket in exact arithmetic *)

Module Brackets.

Import Optimize RealScalar.

Local Open Scope R_scope.


End Brackets.

(** ** The benchmark harness: [Benchmark.__run_solver] *)

(** [benchmarx/benchmark.py].  The harness drives a solver object it knows
    by its methods only ([init_state], [update], [stop_criterion]), reads
    the clock and calls the problem's functions: these are parameters, and
    what they may change is threaded through explicitly.  The counters
    [nfev_global], [njev_global] and [nhev_global] of the [Benchmark]
    object are reachable from the solver (it is built on the traced
    objective), so the solver's methods act on the whole [world]; the clock
    and the problem's functions act on its outer part [E] only. *)
Module Benchmark.

Inductive error : Type :=
| IndexError
| KeyError
| TypeError
| ZeroDivisionError.

Inductive run (A : Type) : Type :=
| Done (v : A)
| Failed (e : error).

Arguments Done {A} v.
Arguments Failed {A} e.

Section RunSolver.

(** Python values the harness does not look into (floats, arrays). *)
Variable P : Type.
(** The solver's state object. *)
Variable St : Type.
(** Everything outside the [Benchmark] object that a call may change. *)
Variable E : Type.

Inductive value : Type :=
| VNone
| VInt (n : Z)
| VPy (p : P).

Record world : Type := mk_world {
  nfev_global : Z;
  njev_global : Z;
  nhev_global : Z;
  ext : E
}.

(** The solver object: a [jaxopt] solver or a [CustomOptimizer]. *)
Record solver : Type := mk_solver {
  maxiter : Z;
  (** [issubclass(type(solver), CustomOptimizer)] *)
  is_custom : bool;
  (** [solver.x_init] *)
  solver_x_init : value;
  init_state : value -> world -> St * world;
  update : value -> St -> world -> (value * St) * world;
  (** [jax.jit] of the update *)
  jitted_update : value -> St -> world -> (value * St) * world;
  (** [solver.stop_criterion] *)
  stop_criterion : value -> St -> world -> bool * world;
  (** [state.error] *)
  error_of : St -> value
}.

(** A [CustomMetric]: its [label], [step] and [func]. *)
Record custom_metric : Type := mk_metric {
  label : string;
  step : Z;
  func : value -> E -> value * E
}.

(** [err < tol] on Python values. *)
Variable py_lt : value -> value -> bool.
(** [isinstance(sol, float)] and [jnp.array([sol])]. *)
Variable is_float : P -> bool.
Variable array1 : P -> P.
(** [v + 1] on a value that is not an [int]. *)
Variable plus_one : P -> P.
(** [time.time()] and the difference of two readings. *)
Variable clock : E -> P * E.
Variable minus : P -> P -> P.
(** [self.problem.f], [self.problem.grad] when the problem has one, and
    [jax.grad(self.problem.f)]. *)
Variable problem_f : value -> E -> value * E.
Variable problem_grad : option (value -> E -> value * E).
Variable jax_grad_f : value -> E -> value * E.

(** [self.str_metrics_to_track] and [self.custom_metrics_to_track]. *)
Variable str_metrics_to_track : list string.
Variable custom_metrics_to_track : list custom_metric.

(** *** The [result] dictionary: keys in insertion order *)

Definition dict : Type := list (string * list value).

Fixpoint lookup (k : string) (d : dict) : option (list value) :=
  match d with
  | [] => None
  | (k', l) :: d' => if String.eqb k k' then Some l else lookup k d'
  end.

Fixpoint replace (k : string) (l : list value) (d : dict) : dict :=
  match d with
  | [] => []
  | (k', l') :: d' =>
      if String.eqb k k' then (k', l) :: d' else (k', l') :: replace k l d'
  end.

(** [if not k in result: result[k] = [v] else: result[k].append(v)] *)
Definition record_value (k : string) (v : value) (d : dict) : dict :=
  match lookup k d with
  | None => d ++ [(k, [v])]
  | Some l => replace k (l ++ [v]) d
  end.

(** [if not "nit" in result: result["nit"] = [1]
     else: result["nit"][0] += 1] *)
Definition bump_nit (d : dict) : run dict :=
  match lookup "nit" d with
  | None => Done (d ++ [("nit"%string, [VInt 1])])
  | Some [] => Failed IndexError
  | Some (VInt n :: l) => Done (replace "nit" (VInt (n + 1) :: l) d)
  | Some (VPy p :: l) => Done (replace "nit" (VPy (plus_one p) :: l) d)
  | Some (VNone :: l) => Failed TypeError
  end.

(** [len(result[k])], 0 when the key is missing. *)
Definition entries (k : string) (d : dict) : nat :=
  match lookup k d with
  | None => 0
  | Some l => length l
  end.

(** [k in self.str_metrics_to_track] *)
Definition tracked (k : string) : bool :=
  existsb (String.eqb k) str_metrics_to_track.

(** *** The main loop *)

(** The variables of [__run_solver] that live across iterations ([x_prev]
    is assigned and never read). *)
Record loop_state : Type := mk_loop {
  result : dict;
  sol : value;
  state : St;
  iters_total : nat
}.

(** The two [if ...: break] tests at the head of a pass with [i > 0]. *)
Definition stops (s : solver) (tol : value) (ls : loop_state) (w : world)
  : bool * world :=
  if negb (is_custom s) && py_lt (error_of s (state ls)) tol then (true, w)
  else if is_custom s then stop_criterion s (sol ls) (state ls) w
  else (false, w).

(** [if k in self.str_metrics_to_track: <record v under k>] *)
Definition record_tracked (k : string) (v : value) (d : dict) : dict :=
  if tracked k then record_value k v d else d.

(** One pass through the loop body, after the tests. *)
Definition loop_pass (s : solver) (count_calls : bool) (start_time : P)
  (ls : loop_state) (w : world) : run (loop_state * world) :=
  let sol1 :=
    match sol ls with
    | VPy p => if is_float p then VPy (array1 p) else VPy p
    | v => v
    end in
  let result1 := record_value "x" sol1 (result ls) in
  match bump_nit result1 with
  | Failed e => Failed e
  | Done result2 =>
      let '((sol2, state2), w1) :=
        if is_custom s || count_calls then update s sol1 (state ls) w
        else jitted_update s sol1 (state ls) w in
      let result3 := record_tracked "nfev" (VInt (nfev_global w1)) result2 in
      let result4 := record_tracked "njev" (VInt (njev_global w1)) result3 in
      let result5 := record_tracked "nhev" (VInt (nhev_global w1)) result4 in
      let '(result6, w2) :=
        if tracked "time" then
          let '(now, e) := clock (ext w1) in
          (record_value "time" (VPy (minus now start_time)) result5,
           mk_world (nfev_global w1) (njev_global w1) (nhev_global w1) e)
        else (result5, w1) in
      Done (mk_loop result6 sol2 state2 (iters_total ls), w2)
  end.

(** [for i in range(solver.maxiter)], from pass [i] with [n] passes left. *)
Fixpoint main_loop (s : solver) (count_calls : bool) (start_time : P)
  (tol : value) (n : nat) (i : nat) (ls : loop_state) (w : world)
  : run (loop_state * world) :=
  match n with
  | O => Done (ls, w)
  | S n' =>
      match i with
      | O =>
          match loop_pass s count_calls start_time ls w with
          | Failed e => Failed e
          | Done (ls', w') =>
              main_loop s count_calls start_time tol n' (S i) ls' w'
          end
      | S _ =>
          let ls1 := mk_loop (result ls) (sol ls) (state ls) (i + 1) in
          let '(stop, w1) := stops s tol ls1 w in
          if stop then Done (ls1, w1)
          else
            match loop_pass s count_calls start_time ls1 w1 with
            | Failed e => Failed e
            | Done (ls', w') =>
                main_loop s count_calls start_time tol n' (S i) ls' w'
            end
      end
  end.

(** *** The metrics computed at the end *)

(** [for custom_metric in self.custom_metrics_to_track] *)
Fixpoint custom_metrics (i : nat) (v : value) (ms : list custom_metric)
  (d : dict) (e : E) : run (dict * E) :=
  match ms with
  | [] => Done (d, e)
  | m :: ms' =>
      if (step m =? 0)%Z then Failed ZeroDivisionError
      else if (Z.of_nat i mod step m =? 0)%Z then
        let '(c, e') := func m v e in
        custom_metrics i v ms' (record_value (label m) c d) e'
      else custom_metrics i v ms' d e
  end.

(** One pass of [for i in range(iters_total)]. *)
Definition final_pass (i : nat) (d : dict) (e : E) : run (dict * E) :=
  match lookup "x" d with
  | None => Failed KeyError
  | Some xs =>
      match nth_error xs i with
      | None => Failed IndexError
      | Some v =>
          let '(d1, e1) :=
            if tracked "f" then
              let '(y, e') := problem_f v e in (record_value "f" y d, e')
            else (d, e) in
          let '(d2, e2) :=
            if tracked "grad" then
              let '(g, e') :=
                match problem_grad with
                | Some grad => grad v e1
                | None => jax_grad_f v e1
                end in
              (record_value "grad" g d1, e')
            else (d1, e1) in
          custom_metrics i v custom_metrics_to_track d2 e2
      end
  end.

(** [for i in range(iters_total)], from pass [i] with [n] passes left. *)
Fixpoint final_loop (n : nat) (i : nat) (d : dict) (e : E) : run (dict * E) :=
  match n with
  | O => Done (d, e)
  | S n' =>
      match final_pass i d e with
      | Failed err => Failed err
      | Done (d', e') => final_loop n' (S i) d' e'
      end
  end.

(** *** [__run_solver] *)

(** What precedes the main loop: the counters are reset, the solver state
    is initialised, the starting point and the tolerance are chosen and the
    clock is read.  [kwargs_tol] is [kwargs["tol"]] when [kwargs] has it. *)
Definition prologue (s : solver) (x_init : value) (kwargs_tol : option value)
  (w : world) : (loop_state * P * value) * world :=
  let w0 := mk_world 0 0 0 (ext w) in
  let '(state0, w1) := init_state s x_init w0 in
  let sol0 :=
    match x_init with
    | VNone => if is_custom s then solver_x_init s else x_init
    | _ => x_init
    end in
  let tol :=
    match kwargs_tol with
    | Some t => if negb (is_custom s) then t else VInt 0
    | None => VInt 0
    end in
  let '(start_time, e) := clock (ext w1) in
  ((mk_loop [] sol0 state0 0, start_time, tol),
   mk_world (nfev_global w1) (njev_global w1) (nhev_global w1) e).

Definition run_solver (s : solver) (x_init : value)
  (kwargs_tol : option value) (w : world) : run (dict * world) :=
  let count_calls := tracked "nfev" || tracked "njev" || tracked "nhev" in
  let '((ls0, start_time, tol), w0) := prologue s x_init kwargs_tol w in
  match main_loop s count_calls start_time tol (Z.to_nat (maxiter s)) 0
          ls0 w0 with
  | Failed e => Failed e
  | Done (ls, w1) =>
      match final_loop (iters_total ls) 0 (result ls) (ext w1) with
      | Failed e => Failed e
      | Done (d, e) =>
          Done (d, mk_world (nfev_global w1) (njev_global w1)
                     (nhev_global w1) e)
      end
  end.

End RunSolver.

Arguments VNone {P}.
Arguments VInt {P} n.
Arguments VPy {P} p.

End Benchmark.

(** ** A solver to run the harness on *)

Module BenchmarkExample.

Import Benchmark.

(** Half of a numeric value. *)
Definition halve (v : value Z) : Z :=
  match v with
  | VNone => 0
  | VInt n => n / 2
  | VPy p => p / 2
  end.

(** A solver that halves its iterate and reports the new iterate as its
    error. *)
Definition halving_solver (maxiter : Z) : solver Z Z unit :=
  mk_solver maxiter false VNone
    (fun _ w => (0%Z, w))
    (fun v _ w => ((VPy (halve v), halve v), w))
    (fun v _ w => ((VPy (halve v), halve v), w))
    (fun _ _ w => (false, w))
    (fun st => VInt st).

Definition number (v : value Z) : Z :=
  match v with
  | VNone => 0
  | VInt n => n
  | VPy p => p
  end.

Definition less (u v : value Z) : bool := (number u <? number v)%Z.

(** [__run_solver] on [halving_solver], with a clock that stands still,
    the objective [f(x) = x] and no custom metric. *)
Definition run_halving (metrics : list string) (maxiter : Z) (x_init : Z)
  (kwargs_tol : option (value Z)) : run (dict Z * world unit) :=
  run_solver less (fun _ => false) (fun p => p) (fun p => (p + 1)%Z)
    (fun e => (0%Z, e)) Z.sub (fun v e => (v, e)) None (fun v e => (v, e))
    metrics [] (halving_solver maxiter) (VPy x_init) kwargs_tol
    (mk_world 0 0 0 tt).

End BenchmarkExample.

(** * Properties *)

Import Optimize.

Arguments iterate : simpl never.
Arguments tau : simpl never.

(** ** The descent drivers *)

Section DescentFacts.

Context {F V : Type} `{Scalar F} `{Vector F V}.

Variable df : V -> V.
Variable accuracy : F.
Variable accept_test : option ((V -> V) -> V -> F -> bool).

Lemma gd_loop_skeleton (step_size : F) (flag : bool) (n : nat) (s : @gd_state V) :
  gd_loop df step_size accuracy flag accept_test n s =
  descent_loop (gd_step df step_size) df accuracy flag accept_test n s.
Proof.
  revert s; induction n as [|n IH]; intro s; simpl; [reflexivity|].
  destruct (accepted _ _ _ _); [reflexivity|]. apply IH.
Qed.

Lemma sgd_loop_skeleton (f : V -> F) (flag : bool) (n : nat) (s : @gd_state V) :
  sgd_loop f df accuracy flag accept_test n s =
  descent_loop (sgd_step f df) df accuracy flag accept_test n s.
Proof.
  revert s; induction n as [|n IH]; intro s; simpl; [reflexivity|].
  destruct (accepted _ _ _ _); [reflexivity|]. apply IH.
Qed.

Lemma gd_record_x (flag : bool) (s : @gd_state V) :
  gd_x (gd_record flag s) = gd_x s.
Proof. destruct flag; reflexivity. Qed.

Lemma gd_record_counters (flag : bool) (s : @gd_state V) :
  gd_success (gd_record flag s) = gd_success s /\
  gd_nfev (gd_record flag s) = gd_nfev s /\
  gd_njev (gd_record flag s) = gd_njev s /\
  gd_nit (gd_record flag s) = gd_nit s.
Proof. destruct flag; repeat split; reflexivity. Qed.

Lemma iterate_shift (step : V -> V) (k : nat) (x0 : V) :
  iterate step (S k) x0 = iterate step k (step x0).
Proof. unfold iterate. apply Nat.iter_succ_r. Qed.

Section Skeleton.

Variable step : V -> V.
Variable flag : bool.

Let loop := descent_loop step df accuracy flag accept_test.
Let accepts (x : V) : bool := accepted accept_test df x accuracy.

(** The loop stops at the first accepted iterate: no update is applied to
    it, and [k] updates were made before. *)
Lemma descent_loop_accepts (k : nat) : forall (n : nat) (s : @gd_state V),
  (k < n)%nat ->
  (forall j, (j < k)%nat -> accepts (iterate step j (gd_x s)) = false) ->
  accepts (iterate step k (gd_x s)) = true ->
  gd_x (loop n s) = iterate step k (gd_x s) /\
  gd_success (loop n s) = true /\
  gd_nit (loop n s) = (gd_nit s + k)%nat /\
  gd_njev (loop n s) = (gd_njev s + k)%nat.
Proof.
  induction k as [|k IH]; intros n s Hk Hbefore Hat.
  - destruct n as [|n]; [lia|]. unfold loop; simpl.
    unfold accepts, iterate in Hat; simpl in Hat.
    rewrite gd_record_x, Hat; simpl.
    destruct (gd_record_counters flag s) as (_ & _ & Hj & Hi).
    rewrite Hi, Hj, !Nat.add_0_r. auto.
  - destruct n as [|n]; [lia|]. unfold loop; simpl.
    assert (Hfst : accepts (gd_x s) = false) by (apply (Hbefore 0%nat); lia).
    unfold accepts in Hfst. rewrite gd_record_x, Hfst.
    destruct (gd_record_counters flag s) as (_ & _ & Hj & Hi).
    rewrite Hi, Hj.
    assert (Hlt : (k < n)%nat) by lia.
    assert (Hb : forall j, (j < k)%nat ->
                 accepts (iterate step j (step (gd_x s))) = false).
    { intros j Hj'. rewrite <- iterate_shift. apply Hbefore. lia. }
    rewrite iterate_shift in Hat.
    match goal with |- context [descent_loop _ _ _ _ _ n ?s'] =>
      destruct (IH n s' Hlt Hb Hat) as (Hx & Hs & Hn & Hg) end.
    unfold loop in *. simpl in Hx, Hn, Hg.
    rewrite Hx, Hs, Hn, Hg, iterate_shift. repeat split; lia.
Qed.

(** When no iterate is accepted the loop makes all its updates. *)
Lemma descent_loop_exhausts : forall (n : nat) (s : @gd_state V),
  (forall j, (j < n)%nat -> accepts (iterate step j (gd_x s)) = false) ->
  gd_x (loop n s) = iterate step n (gd_x s) /\
  gd_success (loop n s) = gd_success s /\
  gd_nit (loop n s) = (gd_nit s + n)%nat /\
  gd_njev (loop n s) = (gd_njev s + n)%nat /\
  gd_nfev (loop n s) = gd_nfev s.
Proof.
  induction n as [|n IH]; intros s Hnone.
  - unfold loop; simpl. rewrite !Nat.add_0_r. auto.
  - unfold loop; simpl.
    assert (Hfst : accepts (gd_x s) = false) by (apply (Hnone 0%nat); lia).
    unfold accepts in Hfst. rewrite gd_record_x, Hfst.
    destruct (gd_record_counters flag s) as (Hs0 & Hf & Hj & Hi).
    rewrite Hi, Hj, Hs0, Hf.
    assert (Hb : forall j, (j < n)%nat ->
                 accepts (iterate step j (step (gd_x s))) = false).
    { intros j Hj'. rewrite <- iterate_shift. apply Hnone. lia. }
    match goal with |- context [descent_loop _ _ _ _ _ n ?s'] =>
      destruct (IH s' Hb) as (Hx & Hs & Hn & Hg & Hv) end.
    unfold loop in *. simpl in Hx, Hs, Hn, Hg, Hv.
    rewrite Hx, Hs, Hn, Hg, Hv, iterate_shift. repeat split; lia.
Qed.

(** The loop never touches [nfev]. *)
Lemma descent_loop_nfev : forall (n : nat) (s : @gd_state V),
  gd_nfev (loop n s) = gd_nfev s.
Proof.
  induction n as [|n IH]; intro s; unfold loop; simpl; [reflexivity|].
  destruct (gd_record_counters flag s) as (_ & Hf & _ & _).
  destruct (accepted _ _ _ _); simpl; [exact Hf|].
  unfold loop in IH. rewrite IH. simpl. exact Hf.
Qed.


End Skeleton.

(** With the trajectory recorded, one entry is appended per pass through
    the loop head: one per update, and one more for the accepted iterate. *)
Lemma descent_loop_trajectory (step : V -> V) : forall (n : nat) (s : @gd_state V),
  gd_success s = false ->
  let s' := descent_loop step df accuracy true accept_test n s in
  (length (gd_trajectory s') + gd_nit s)%nat =
  (length (gd_trajectory s) + gd_nit s' + (if gd_success s' then 1 else 0))%nat.
Proof.
  induction n as [|n IH]; intros s Hs; simpl.
  - rewrite Hs. lia.
  - destruct (accepted _ _ _ _); simpl.
    + rewrite length_app; simpl. lia.
    + match goal with |- context [descent_loop _ _ _ _ _ n ?s0] =>
        specialize (IH s0 Hs) end.
      simpl in IH. rewrite length_app in IH. simpl in IH. lia.
Qed.

(** The recorded trajectory only grows at its end. *)
Lemma descent_loop_trajectory_prefix (step : V -> V) (flag : bool) :
  forall (n : nat) (s : @gd_state V),
  exists l, gd_trajectory (descent_loop step df accuracy flag accept_test n s)
            = gd_trajectory s ++ l.
Proof.
  induction n as [|n IH]; intro s; simpl.
  - exists []. now rewrite app_nil_r.
  - destruct (accepted _ _ _ _); simpl.
    + destruct flag; simpl; [now eexists|]. exists []. now rewrite app_nil_r.
    + match goal with |- context [descent_loop _ _ _ _ _ n ?s0] =>
        destruct (IH s0) as (l & Hl) end.
      rewrite Hl. simpl. destruct flag; simpl.
      * rewrite <- app_assoc. now eexists.
      * now eexists.
Qed.

End DescentFacts.

(** ** The line searches, over any scalars *)

Section LineSearchFacts.

Context {F : Type} `{Scalar F}.

Variable f : F -> F.
Variable accuracy : F.

(** *** [binary_search] *)

Lemma bs_body_success (s : @bs_state F) :
  bs_success (bs_body f s) = bs_success s.
Proof.
  unfold bs_body. destruct (s_leb _ _); [reflexivity|].
  destruct (s_leb _ _); reflexivity.
Qed.

Lemma bs_body_nit (s : @bs_state F) : bs_nit (bs_body f s) = S (bs_nit s).
Proof.
  unfold bs_body. destruct (s_leb _ _); [reflexivity|].
  destruct (s_leb _ _); reflexivity.
Qed.


(** The bracket the loop ends with is the one reached by its [nit] passes
    through the body. *)
Lemma bs_loop_iterate : forall (n : nat) (s : @bs_state F),
  exists k, (k <= n)%nat /\
    bs_nit (bs_loop f accuracy n s) = (bs_nit s + k)%nat /\
    bs_a (bs_loop f accuracy n s) = bs_a (iterate (bs_body f) k s) /\
    bs_b (bs_loop f accuracy n s) = bs_b (iterate (bs_body f) k s) /\
    bs_c (bs_loop f accuracy n s) = bs_c (iterate (bs_body f) k s).
Proof.
  induction n as [|n IH]; intro s; simpl.
  - exists 0%nat. rewrite Nat.add_0_r. repeat split; lia.
  - destruct (bs_stop accuracy s); simpl.
    + exists 0%nat. rewrite Nat.add_0_r. repeat split; lia.
    + destruct (IH (bs_body f s)) as (k & Hk & Hn & Ha & Hb & Hc).
      exists (S k). rewrite iterate_shift, Hn, Ha, Hb, Hc, bs_body_nit.
      repeat split; lia.
Qed.

(** A property of the bracket kept by the body is kept by the loop. *)
Lemma bs_loop_invariant (P : F -> F -> F -> Prop) :
  (forall s : @bs_state F, P (bs_a s) (bs_b s) (bs_c s) ->
     P (bs_a (bs_body f s)) (bs_b (bs_body f s)) (bs_c (bs_body f s))) ->
  forall (n : nat) (s : @bs_state F),
  P (bs_a s) (bs_b s) (bs_c s) ->
  P (bs_a (bs_loop f accuracy n s)) (bs_b (bs_loop f accuracy n s))
    (bs_c (bs_loop f accuracy n s)).
Proof.
  intros Hbody. induction n as [|n IH]; intros s Hs; simpl; [exact Hs|].
  destruct (bs_stop accuracy s); simpl; [exact Hs|]. apply IH, Hbody, Hs.
Qed.

Lemma bs_iterate_invariant (P : F -> F -> F -> Prop) :
  (forall s : @bs_state F, P (bs_a s) (bs_b s) (bs_c s) ->
     P (bs_a (bs_body f s)) (bs_b (bs_body f s)) (bs_c (bs_body f s))) ->
  forall (k : nat) (s : @bs_state F),
  P (bs_a s) (bs_b s) (bs_c s) ->
  P (bs_a (iterate (bs_body f) k s)) (bs_b (iterate (bs_body f) k s))
    (bs_c (iterate (bs_body f) k s)).
Proof.
  intros Hbody. induction k as [|k IH]; intros s Hs; [exact Hs|].
  rewrite iterate_shift. apply IH, Hbody, Hs.
Qed.

(** *** [golden_search] *)

Lemma gs_body_success (s : @gs_state F) :
  gs_success (gs_body f s) = gs_success s.
Proof. unfold gs_body. destruct (s_leb _ _); reflexivity. Qed.

Lemma gs_body_nit (s : @gs_state F) : gs_nit (gs_body f s) = S (gs_nit s).
Proof. unfold gs_body. destruct (s_leb _ _); reflexivity. Qed.


Lemma gs_loop_iterate : forall (n : nat) (s : @gs_state F),
  exists k, (k <= n)%nat /\
    gs_nit (gs_loop f accuracy n s) = (gs_nit s + k)%nat /\
    gs_a (gs_loop f accuracy n s) = gs_a (iterate (gs_body f) k s) /\
    gs_b (gs_loop f accuracy n s) = gs_b (iterate (gs_body f) k s).
Proof.
  induction n as [|n IH]; intro s; simpl.
  - exists 0%nat. rewrite Nat.add_0_r. repeat split; lia.
  - destruct (gs_stop accuracy s); simpl.
    + exists 0%nat. rewrite Nat.add_0_r. repeat split; lia.
    + destruct (IH (gs_body f s)) as (k & Hk & Hn & Ha & Hb).
      exists (S k). rewrite iterate_shift, Hn, Ha, Hb, gs_body_nit.
      repeat split; lia.
Qed.

Lemma gs_iterate_invariant (P : @gs_state F -> Prop) :
  (forall s, P s -> P (gs_body f s)) ->
  forall (k : nat) (s : @gs_state F), P s -> P (iterate (gs_body f) k s).
Proof.
  intros Hbody. induction k as [|k IH]; intros s Hs; [exact Hs|].
  rewrite iterate_shift. apply IH, Hbody, Hs.
Qed.

(** *** [parabolic_search] *)



(** The loop is left at once, whatever the budget, when the first test
    [x3 - x1 > accuracy] holds. *)
Lemma ps_loop_break (n : nat) (s : @ps_state F) :
  ps_break accuracy s = true -> ps_loop f accuracy n s = Returned s.
Proof. intros Hb. destruct n; simpl; [reflexivity|]. now rewrite Hb. Qed.

End LineSearchFacts.

(** ** The brackets, over any scalars *)

Import Arithmetic.

Section BracketFacts.

Context {F : Type} `{Scalar F}.

Variable f : F -> F.

Lemma iterate_invariant {A : Type} (P : A -> Prop) (step : A -> A) :
  (forall s, P s -> P (step s)) ->
  forall (k : nat) (s : A), P s -> P (iterate step k s).
Proof.
  intros Hstep. induction k as [|k IH]; intros s Hs; [exact Hs|].
  change (iterate step (S k) s) with (step (iterate step k s)).
  apply Hstep, IH, Hs.
Qed.

(** *** [binary_search] *)

Lemma bs_init_inside (a b : F) :
  ordered F -> midpoints a b -> s_le a b -> bs_inside a b (bs_init a b).
Proof.
  intros (Hrefl & Htrans) Hmid Hab.
  destruct (Hrefl _ _ Hab) as (Haa & Hbb).
  assert (Hwa : within a b a) by (split; assumption).
  assert (Hwb : within a b b) by (split; assumption).
  destruct (Hmid a b Hwa Hwb Hab) as ((H1 & H2) & _).
  unfold bs_inside; simpl. repeat split; assumption.
Qed.

(** The three points of a bracket inside [[lo, hi]] are values of
    [[lo, hi]]. *)
Lemma bs_inside_within (lo hi : F) (s : @bs_state F) :
  ordered F -> bs_inside lo hi s ->
  within lo hi (bs_a s) /\ within lo hi (bs_c s) /\ within lo hi (bs_b s).
Proof.
  intros (Hrefl & Htrans) (Hla & Hac & Hcb & Hbh).
  assert (Hlc : s_le lo (bs_c s)) by (eapply Htrans; eassumption).
  assert (Hch : s_le (bs_c s) hi) by (eapply Htrans; eassumption).
  repeat split; try assumption.
  - eapply Htrans; eassumption.
  - eapply Htrans; eassumption.
Qed.

(** One pass through the body keeps the bracket inside [[lo, hi]] and in
    order. *)
Lemma bs_body_inside (lo hi : F) (s : @bs_state F) :
  ordered F -> midpoints lo hi ->
  bs_inside lo hi s -> bs_inside lo hi (bs_body f s).
Proof.
  intros Hord Hmid Hs.
  destruct (bs_inside_within Hord Hs) as (Hwa & Hwc & Hwb).
  destruct Hord as (Hrefl & Htrans).
  destruct Hs as (Hla & Hac & Hcb & Hbh).
  destruct (Hmid _ _ Hwa Hwc Hac) as ((Hay & Hyc) & _).
  destruct (Hmid _ _ Hwc Hwb Hcb) as (_ & (Hcz & Hzb)).
  unfold bs_inside, bs_body.
  destruct (s_leb (f _) (f (bs_c s))); simpl.
  - repeat split; try assumption. apply Hwc.
  - destruct (s_leb _ _); simpl.
    + repeat split; try assumption.
      * eapply Htrans; eassumption.
      * eapply Htrans; eassumption.
    + repeat split; try assumption. apply Hwc.
Qed.


(** *** [golden_search] *)

Lemma gs_init_inside (a b : F) :
  ordered F -> interior_points a b -> s_le a b -> gs_inside a b (gs_init a b).
Proof.
  intros (Hrefl & Htrans) Hint Hab.
  destruct (Hrefl _ _ Hab) as (Haa & Hbb).
  assert (Hwa : within a b a) by (split; assumption).
  assert (Hwb : within a b b) by (split; assumption).
  destruct (Hint a b Hwa Hwb) as (Hy & Hz & _).
  unfold gs_inside; simpl. repeat split; try assumption; apply Hy || apply Hz.
Qed.

(** One pass through the body keeps the four points inside [[lo, hi]]. *)
Lemma gs_body_inside (lo hi : F) (s : @gs_state F) :
  interior_points lo hi -> gs_inside lo hi s -> gs_inside lo hi (gs_body f s).
Proof.
  intros Hint (Hwa & Hwb & Hwy & Hwz).
  unfold gs_inside, gs_body.
  destruct (s_leb _ _); simpl.
  - destruct (Hint _ _ Hwa Hwz) as (Hy & _ & _).
    split; [exact Hwa|]. split; [exact Hwz|]. split; [exact Hy|exact Hwy].
  - destruct (Hint _ _ Hwy Hwb) as (_ & Hz & _).
    split; [exact Hwy|]. split; [exact Hwb|]. split; [exact Hwz|exact Hz].
Qed.


End BracketFacts.

(** ** The arithmetic of the real numbers *)

Module RealFacts.

Import RealScalar Brackets.

Local Open Scope R_scope.

Lemma Rleb_true (u v : R) : Rleb u v = true <-> u <= v.
Proof. unfold Rleb. destruct (Rle_dec u v); split; auto; discriminate. Qed.

Lemma real_le (u v : R) : s_le u v <-> u <= v.
Proof. apply Rleb_true. Qed.

(** [tau] is the golden ratio: it is above 1 and [tau * tau = tau + 1]. *)
Lemma tau_golden : 1 < @tau R _ /\ @tau R _ * @tau R _ = @tau R _ + 1.
Proof.
  unfold tau; simpl.
  assert (Hsq : sqrt 5 * sqrt 5 = 5) by (apply sqrt_sqrt; lra).
  assert (Hpos : 0 <= sqrt 5) by apply sqrt_pos.
  split; nra.
Qed.

(** The two ratios [1 / tau] and [1 / tau ** 2] used by [golden_search]. *)
Lemma tau_ratios :
  let t := / @tau R _ in
  0 < t < 1 /\ / (@tau R _ * @tau R _) = 1 - t.
Proof.
  destruct tau_golden as (H1 & Hsq). set (g := @tau R _) in *. simpl.
  assert (Hg : g <> 0) by lra.
  assert (Ht : 0 < / g) by (apply Rinv_0_lt_compat; lra).
  assert (Ht1 : / g < 1).
  { rewrite <- Rinv_1. apply Rinv_lt_contravar; lra. }
  split; [lra|].
  assert (Hgg : g * g <> 0) by nra.
  apply (Rmult_eq_reg_l (g * g)); [|exact Hgg].
  rewrite Rinv_r by exact Hgg.
  replace (g * g * (1 - / g)) with (g * g - g * (g * / g)) by ring.
  rewrite Rinv_r by exact Hg. lra.
Qed.

(** The real numbers have the four properties on every bracket. *)
Lemma real_ordered : ordered R.
Proof.
  split.
  - intros u v _. split; apply real_le; lra.
  - intros u v w Huv Hvw. apply real_le in Huv, Hvw. apply real_le. lra.
Qed.

Lemma real_midpoints (lo hi : R) : midpoints lo hi.
Proof.
  intros u v _ _ Huv. apply real_le in Huv.
  unfold within; simpl. repeat split; apply real_le; lra.
Qed.


Lemma real_interior_points (lo hi : R) : interior_points lo hi.
Proof.
  destruct tau_ratios as ((Ht0 & Ht1) & Hsq).
  intros u v (Hu1 & Hu2) (Hv1 & Hv2).
  apply real_le in Hu1, Hu2, Hv1, Hv2.
  unfold within, s_sq; simpl. unfold Rdiv. rewrite Hsq.
  set (t := / @tau R _) in *.
  repeat split; apply real_le; nra.
Qed.

Section Golden.

Variable f : R -> R.




End Golden.

End RealFacts.

(** ** Iteration counts *)

Section Budget.

Context {F V : Type} `{Scalar F} `{Vector F V}.

Lemma descent_loop_budget (step df : V -> V) (accuracy : F) (flag : bool)
  (accept_test : option ((V -> V) -> V -> F -> bool)) :
  forall (n : nat) (s : @gd_state V),
  (gd_nit (descent_loop step df accuracy flag accept_test n s)
   <= gd_nit s + n)%nat.
Proof.
  induction n as [|n IH]; intro s; simpl; [lia|].
  destruct (gd_record_counters flag s) as (_ & _ & _ & Hi).
  destruct (accepted _ _ _ _); simpl; [lia|].
  match goal with |- context [descent_loop _ _ _ _ _ n ?s0] =>
    specialize (IH s0) end.
  simpl in IH. lia.
Qed.

Lemma ps_body_nit (f : F -> F) (s s' : @ps_state F) :
  ps_body f s = Returned s' -> ps_nit s' = S (ps_nit s).
Proof.
  unfold ps_body, py_sq, py_div.
  destruct (_ && _); simpl; [discriminate|].
  destruct (_ && _); simpl; [discriminate|].
  destruct (s_eqb _ _); simpl; [discriminate|].
  intros Heq. injection Heq as <-.
  destruct (s_leb _ _); destruct (s_leb _ _); reflexivity.
Qed.

Lemma ps_body_exn (f : F -> F) (s : @ps_state F) (e : exn) :
  ps_body f s = Raised e -> e = ZeroDivisionError \/ e = OverflowError.
Proof.
  unfold ps_body, py_sq, py_div.
  destruct (_ && _); simpl; [intros Heq; injection Heq as <-; now right|].
  destruct (_ && _); simpl; [intros Heq; injection Heq as <-; now right|].
  destruct (s_eqb _ _); simpl; [|discriminate].
  intros Heq. injection Heq as <-. now left.
Qed.

Lemma ps_loop_budget (f : F -> F) (accuracy : F) :
  forall (n : nat) (s : @ps_state F),
  match ps_loop f accuracy n s with
  | Returned s' => (ps_nit s' <= ps_nit s + n)%nat
  | Raised e => e = ZeroDivisionError \/ e = OverflowError
  end.
Proof.
  induction n as [|n IH]; intro s; simpl; [lia|].
  destruct (ps_break accuracy s); [lia|].
  destruct (ps_body f s) as [s1|e] eqn:Hbody; simpl.
  - specialize (IH s1). rewrite (ps_body_nit _ _ Hbody) in IH.
    destruct (ps_loop f accuracy n s1); [lia|exact IH].
  - eapply ps_body_exn, Hbody.
Qed.


End Budget.

(** ** The calls of [gradient_descent] *)

Section CallFacts.

Context {F V : Type} `{Scalar F} `{Vector F V}.

Import Calls.

Variable df : V -> V.
Variables step_size accuracy : F.
Variable flag : bool.
Variable accept_test : option ((V -> V) -> V -> F -> bool).

Lemma f_calls_app (l1 l2 : list (@call V)) :
  f_calls (l1 ++ l2) = (f_calls l1 + f_calls l2)%nat.
Proof. unfold f_calls. now rewrite filter_app, length_app. Qed.

(** The recording loop computes what [gd_loop] computes. *)
Lemma gd_loop_logged_value : forall (n : nat) (s : @gd_state V),
  fst (gd_loop_logged df step_size accuracy flag accept_test n s) =
  gd_loop df step_size accuracy flag accept_test n s.
Proof.
  induction n as [|n IH]; intro s; simpl; [reflexivity|].
  unfold eval_accepted, accepted, seq, ret.
  destruct accept_test as [test|]; simpl.
  - destruct (test df _ accuracy); simpl; [reflexivity|].
    match goal with |- context [gd_loop_logged _ _ _ _ _ n ?s0] =>
      specialize (IH s0);
      destruct (gd_loop_logged df step_size accuracy flag (Some test) n s0)
    end.
    simpl in *. exact IH.
  - match goal with |- context [gd_loop_logged _ _ _ _ _ n ?s0] =>
      specialize (IH s0);
      destruct (gd_loop_logged df step_size accuracy flag None n s0)
    end.
    simpl in *. exact IH.
Qed.

(** The loop makes no call to [f]. *)
Lemma gd_loop_logged_no_f : forall (n : nat) (s : @gd_state V),
  f_calls (snd (gd_loop_logged df step_size accuracy flag accept_test n s)) = 0%nat.
Proof.
  induction n as [|n IH]; intro s; simpl; [reflexivity|].
  unfold eval_accepted, seq, ret.
  destruct accept_test as [test|]; simpl.
  - destruct (test df _ accuracy); simpl; [reflexivity|].
    match goal with |- context [gd_loop_logged _ _ _ _ _ n ?s0] =>
      specialize (IH s0);
      destruct (gd_loop_logged df step_size accuracy flag (Some test) n s0)
    end.
    simpl in *. exact IH.
  - match goal with |- context [gd_loop_logged _ _ _ _ _ n ?s0] =>
      specialize (IH s0);
      destruct (gd_loop_logged df step_size accuracy flag None n s0)
    end.
    simpl in *. exact IH.
Qed.

End CallFacts.

(** ** [success] and the way the loop was left *)

Import FloatScalar Vectors SmallBasedTests.

Unset Implicit Arguments.

Section SuccessFacts.

Context {F V : Type} `{Scalar F} `{Vector F V}.



Lemma descent_loops (m : @method F) (f : V -> F) (df : V -> V) (x0 : V)
  (max_steps : Z) (accuracy : F) (flag : bool)
  (accept_test : option ((V -> V) -> V -> F -> bool)) :
  descent m f df x0 max_steps accuracy flag accept_test =
  gd_result f df flag
    (descent_loop (method_step m f df) df accuracy flag accept_test
       (Z.to_nat max_steps) (gd_init x0)).
Proof.
  destruct m; simpl.
  - unfold gradient_descent. now rewrite gd_loop_skeleton.
  - unfold steepest_gradient_descent. now rewrite sgd_loop_skeleton.
Qed.


End SuccessFacts.



(** C2 (as the code has it).  When the initial bracket is wider than
    [accuracy], [parabolic_search] stops at once whatever [max_steps] is:
    no parabola is fitted, [nit = 0], and the solution is the midpoint of
    the initial bracket, whose width [b - a] still exceeds [accuracy]. *)
Theorem parabolic_search_stops_when_wide {F : Type} `{Scalar F}
  (f : F -> F) (a b accuracy : F) (max_steps : Z) :
  s_ltb accuracy (s_sub b a) = true ->
  parabolic_search f a b accuracy max_steps =
  Returned
    (OptimizeResults.mk false "" (f (s_div (s_add a b) (s_of_Z 2))) None
       0 0 0 0 (s_div (s_add a b) (s_of_Z 2)) None).
Proof.
  intros Hwide. unfold parabolic_search.
  rewrite ps_loop_break by exact Hwide. reflexivity.
Qed.

Lemma parabolic_search_stops_when_wide_witness :
  s_ltb (F := PrimFloat.float) default_accuracy
    (s_sub (s_of_Z 3) (s_of_Z 0)) = true /\
  parabolic_search (F := PrimFloat.float) parabola (s_of_Z 0) (s_of_Z 3)
    default_accuracy 1000 =
  Returned
    (OptimizeResults.mk false ""
       (parabola (s_div (s_add (s_of_Z 0) (s_of_Z 3)) (s_of_Z 2))) None
       0 0 0 0 (s_div (s_add (s_of_Z 0) (s_of_Z 3)) (s_of_Z 2)) None).
Proof.
  split; [vm_compute; reflexivity|].
  apply (parabolic_search_stops_when_wide (F := PrimFloat.float) parabola
           (s_of_Z 0) (s_of_Z 3) default_accuracy 1000).
  vm_compute. reflexivity.
Defined.

(** ** Trajectories *)

Section TrajectoryFacts.

Context {F V : Type} `{Scalar F} `{Vector F V}.

Lemma descent_loop_trajectory_head (step df : V -> V) (accuracy : F)
  (accept_test : option ((V -> V) -> V -> F -> bool)) (n : nat) (x0 : V) :
  nth_error
    (gd_trajectory
       (descent_loop step df accuracy true accept_test (S n) (gd_init x0))) 0
  = Some x0.
Proof.
  simpl. destruct (accepted _ _ _ _); simpl; [reflexivity|].
  match goal with |- context [descent_loop _ _ _ _ _ n ?s0] =>
    destruct (descent_loop_trajectory_prefix df accuracy accept_test step
                true n s0) as (l & Hl) end.
  rewrite Hl. reflexivity.
Qed.

End TrajectoryFacts.

(** C3 (amended).  With [trajectory_flag = true], either driver returns a
    trajectory whose length is [iterations] when the loop ran to
    [max_steps] ([success = false]) and [iterations + 1] when it stopped
    early via [accept_test] ([success = true]), the accepted iterate being
    recorded as well; whenever [max_steps >= 1] its first entry is [x0]. *)
Theorem trajectory_length {F V : Type} `{Scalar F} `{Vector F V}
  (m : @method F) (f : V -> F) (df : V -> V) (x0 : V) (max_steps : Z)
  (accuracy : F) (accept_test : option ((V -> V) -> V -> F -> bool)) :
  let r := descent m f df x0 max_steps accuracy true accept_test in
  exists t,
    OptimizeResults.trajectory r = Some t /\
    length t =
      (OptimizeResults.nit r + (if OptimizeResults.success r then 1 else 0))%nat /\
    ((1 <= max_steps)%Z -> nth_error t 0 = Some x0).
Proof.
  intro r. unfold r. rewrite descent_loops. unfold gd_result; simpl.
  eexists. split; [reflexivity|]. split.
  - pose proof (descent_loop_trajectory df accuracy accept_test
                  (method_step m f df) (Z.to_nat max_steps) (gd_init x0)
                  eq_refl) as Hlen.
    simpl in Hlen. lia.
  - intros Hpos. destruct (Z.to_nat max_steps) as [|n] eqn:Hn; [lia|].
    apply descent_loop_trajectory_head.
Qed.

(** [gradient_descent] with step 0.5 from [[4; 3]] on the functions of
    [small_based_tests]. *)
Lemma trajectory_length_witness :
  let r := descent (F := PrimFloat.float)
             (Gradient_descent (s_div (s_of_Z 1) (s_of_Z 2)))
             f df [s_of_Z 4; s_of_Z 3] 2000
             (s_div (s_of_Z 1) (s_of_Z 1000000)) true (Some accept_test) in
  exists t,
    OptimizeResults.trajectory r = Some t /\
    length t =
      (OptimizeResults.nit r + (if OptimizeResults.success r then 1 else 0))%nat /\
    nth_error t 0 = Some [s_of_Z 4; s_of_Z 3].
Proof.
  destruct (trajectory_length (F := PrimFloat.float)
              (Gradient_descent (s_div (s_of_Z 1) (s_of_Z 2)))
              f df [s_of_Z 4; s_of_Z 3] 2000
              (s_div (s_of_Z 1) (s_of_Z 1000000)) (Some accept_test))
    as (t & Ht & Hlen & Hhead).
  exists t. split; [exact Ht|]. split; [exact Hlen|]. apply Hhead. lia.
Defined.

(** C3 (as stated) fails when the loop stops early.  [gradient_descent]
    started at the minimiser [[1; 1]] is accepted in its first pass: the
    trajectory is [[[1; 1]]], of length 1, and [iterations] is 0. *)
Lemma trajectory_length_counterexample :
  let r := gradient_descent (F := PrimFloat.float) f df
             [s_of_Z 1; s_of_Z 1] (s_div (s_of_Z 1) (s_of_Z 10)) 2000
             (s_div (s_of_Z 1) (s_of_Z 1000000)) true (Some accept_test) in
  OptimizeResults.success r = true /\
  OptimizeResults.nit r = 0%nat /\
  OptimizeResults.trajectory r = Some [[s_of_Z 1; s_of_Z 1]] /\
  forall t, OptimizeResults.trajectory r = Some t ->
            length t <> OptimizeResults.nit r.
Proof.
  assert (Ht : OptimizeResults.trajectory
                 (gradient_descent (F := PrimFloat.float) f df
                    [s_of_Z 1; s_of_Z 1] (s_div (s_of_Z 1) (s_of_Z 10)) 2000
                    (s_div (s_of_Z 1) (s_of_Z 1000000)) true (Some accept_test))
               = Some [[s_of_Z 1; s_of_Z 1]])
    by (vm_compute; reflexivity).
  cbv zeta. repeat split; try (vm_compute; reflexivity).
  intros t Heq. rewrite Ht in Heq. injection Heq as <-.
  vm_compute. discriminate.
Qed.

(** ** Stopping through [accept_test] *)

(** C5.  If [accept_test(df, x, accuracy)] first holds at the head of pass
    [k] (within the budget), either driver stops there with
    [success = true]: the returned solution is the iterate [x_k] the test
    was applied to, with the [k] earlier updates and no further one. *)
Theorem accept_test_stops_before_update {F V : Type} `{Scalar F} `{Vector F V}
  (m : @method F) (f : V -> F) (df : V -> V) (x0 : V) (max_steps : Z)
  (accuracy : F) (flag : bool) (test : (V -> V) -> V -> F -> bool) (k : nat) :
  (k < Z.to_nat max_steps)%nat ->
  first_accepted test df accuracy (method_step m f df) x0 k ->
  let r := descent m f df x0 max_steps accuracy flag (Some test) in
  OptimizeResults.success r = true /\
  OptimizeResults.x r = iterate (method_step m f df) k x0 /\
  OptimizeResults.nit r = k /\
  OptimizeResults.njev r = k.
Proof.
  intros Hk (Hbefore & Hat) r. unfold r. rewrite descent_loops.
  unfold gd_result; simpl.
  destruct (descent_loop_accepts df accuracy (Some test) (method_step m f df)
              flag (n := Z.to_nat max_steps) (gd_init x0) Hk)
    as (Hx & Hs & Hn & Hj); simpl; auto.
Qed.

(** [steepest_gradient_descent] from [[4; 3]] on the functions of
    [small_based_tests]: [x0] is not accepted, the iterate after one
    update is. *)
Lemma accept_test_stops_before_update_witness :
  let r := steepest_gradient_descent (F := PrimFloat.float) f df
             [s_of_Z 4; s_of_Z 3] 2000 (s_div (s_of_Z 1) (s_of_Z 1000000))
             false (Some accept_test) in
  OptimizeResults.success r = true /\
  OptimizeResults.x r = sgd_step f df [s_of_Z 4; s_of_Z 3] /\
  OptimizeResults.nit r = 1%nat /\
  OptimizeResults.njev r = 1%nat.
Proof.
  apply (accept_test_stops_before_update (F := PrimFloat.float)
           Steepest_gradient_descent f df [s_of_Z 4; s_of_Z 3] 2000
           (s_div (s_of_Z 1) (s_of_Z 1000000)) false accept_test 1%nat).
  - vm_compute. lia.
  - split.
    + intros j Hj. assert (j = 0%nat) as -> by lia. vm_compute. reflexivity.
    + vm_compute. reflexivity.
Defined.

(** C6.  Without [accept_test] either driver makes all its [max_steps]
    updates: [success = false], [iterations = max_steps], whatever the
    objective, the gradient and the starting point. *)
Theorem no_accept_test_runs_to_max_steps {F V : Type} `{Scalar F} `{Vector F V}
  (m : @method F) (f : V -> F) (df : V -> V) (x0 : V) (max_steps : Z)
  (accuracy : F) (flag : bool) :
  (0 <= max_steps)%Z ->
  let r := descent m f df x0 max_steps accuracy flag None in
  OptimizeResults.success r = false /\
  Z.of_nat (OptimizeResults.nit r) = max_steps /\
  OptimizeResults.x r = iterate (method_step m f df) (Z.to_nat max_steps) x0.
Proof.
  intros Hpos r. unfold r. rewrite descent_loops. unfold gd_result; simpl.
  destruct (descent_loop_exhausts df accuracy None (method_step m f df) flag
              (n := Z.to_nat max_steps) (gd_init x0))
    as (Hx & Hs & Hn & _); [reflexivity|].
  rewrite Hx, Hs, Hn. simpl. repeat split. lia.
Qed.

Lemma no_accept_test_runs_to_max_steps_witness :
  let r := gradient_descent (F := PrimFloat.float) f df
             [s_of_Z 4; s_of_Z 3] (s_div (s_of_Z 1) (s_of_Z 10)) 3
             default_accuracy true None in
  OptimizeResults.success r = false /\
  Z.of_nat (OptimizeResults.nit r) = 3%Z /\
  OptimizeResults.x r =
    iterate (gd_step df (s_div (s_of_Z 1) (s_of_Z 10))) 3 [s_of_Z 4; s_of_Z 3].
Proof.
  apply (no_accept_test_runs_to_max_steps (F := PrimFloat.float)
           (Gradient_descent (s_div (s_of_Z 1) (s_of_Z 10)))
           f df [s_of_Z 4; s_of_Z 3] 3 default_accuracy true).
  lia.
Defined.

(** ** The empty budget *)

(** C7.  With [max_steps = 0] no pass through the loop is made: every
    operation returns [success = false] and [iterations = 0]; the solution
    is the midpoint [(a + b) / 2] of the initial bracket for the three
    searches and [x0] for the two descent drivers. *)
Theorem max_steps_zero {F V : Type} `{Scalar F} `{Vector F V}
  (f : F -> F) (a b accuracy : F)
  (m : @method F) (g : V -> F) (df : V -> V) (x0 : V) (flag : bool)
  (accept_test : option ((V -> V) -> V -> F -> bool)) :
  let mid := s_div (s_add a b) (s_of_Z 2) in
  binary_search f a b accuracy 0 =
    OptimizeResults.mk false "" (f mid) None 0 0 0 0 mid None /\
  golden_search f a b accuracy 0 =
    OptimizeResults.mk false "" (f mid) None 0 0 0 0 mid None /\
  parabolic_search f a b accuracy 0 =
    Returned (OptimizeResults.mk false "" (f mid) None 0 0 0 0 mid None) /\
  descent m g df x0 0 accuracy flag accept_test =
    OptimizeResults.mk false "" (g x0) (Some (df x0)) 0 0 0 0 x0
      (if flag then Some [] else None).
Proof. destruct m; repeat split; reflexivity. Qed.

(** ** Evaluations of the objective *)

(** C8.  [gradient_descent] calls [f] exactly once, after the loop, on the
    returned solution (the calls of the loop contain none to [f]); the
    returned [nfev] and [nhev] are 0, and [nfev] is 0 after any number of
    passes through the loop. *)
Theorem gradient_descent_evaluates_f_once {F V : Type} `{Scalar F} `{Vector F V}
  (f : V -> F) (df : V -> V) (x0 : V) (step_size : F) (max_steps : Z)
  (accuracy : F) (flag : bool)
  (accept_test : option ((V -> V) -> V -> F -> bool)) :
  let run := Calls.gradient_descent_logged f df x0 step_size max_steps
               accuracy flag accept_test in
  let r := gradient_descent f df x0 step_size max_steps accuracy flag
             accept_test in
  fst run = r /\
  (exists loop_calls,
     snd run = loop_calls ++ [Calls.Call_f (OptimizeResults.x r);
                              Calls.Call_df (OptimizeResults.x r)] /\
     Calls.f_calls loop_calls = 0%nat) /\
  Calls.f_calls (snd run) = 1%nat /\
  OptimizeResults.nfev r = 0%nat /\
  OptimizeResults.nhev r = 0%nat /\
  forall n,
    gd_nfev (gd_loop df step_size accuracy flag accept_test n (gd_init x0))
    = 0%nat.
Proof.
  intros run r.
  assert (Hnfev : forall n,
    gd_nfev (gd_loop df step_size accuracy flag accept_test n (gd_init x0))
    = 0%nat).
  { intro n. rewrite gd_loop_skeleton. now rewrite descent_loop_nfev. }
  unfold run, r, Calls.gradient_descent_logged, gradient_descent, gd_result.
  pose proof (Calls_value := gd_loop_logged_value df step_size accuracy flag
                accept_test (Z.to_nat max_steps) (gd_init x0)).
  pose proof (Calls_no_f := gd_loop_logged_no_f df step_size accuracy flag
                accept_test (Z.to_nat max_steps) (gd_init x0)).
  destruct (Calls.gd_loop_logged df step_size accuracy flag accept_test
              (Z.to_nat max_steps) (gd_init x0)) as [s l].
  simpl in Calls_value, Calls_no_f. subst s. simpl.
  split; [reflexivity|]. split.
  - exists l. split; [reflexivity|exact Calls_no_f].
  - split.
    + rewrite f_calls_app, Calls_no_f. reflexivity.
    + split; [apply Hnfev|]. split; [reflexivity|exact Hnfev].
Qed.

(** ** Invalid arguments *)

(** C9 (as stated) fails: nothing is checked at the call boundary.  With
    the malformed bracket [a = b = 1], [binary_search] returns a Result, and
    a successful one, where a fail-fast operation would raise. *)
Lemma fail_fast_counterexample :
  let a : PrimFloat.float := s_of_Z 1 in
  let b : PrimFloat.float := s_of_Z 1 in
  let call := Returned (binary_search parabola a b default_accuracy 1000) in
  Spec.invalid_input a b default_accuracy 1000 = true /\
  call = Returned (OptimizeResults.mk true "" (s_of_Z 1) None 0 0 0 0
                     (s_of_Z 1) None) /\
  Spec.fail_fast a b default_accuracy 1000 call <> call.
Proof.
  cbv zeta. split; [vm_compute; reflexivity|].
  split; [vm_compute; reflexivity|].
  vm_compute. discriminate.
Qed.

(** C9 (amended).  No operation rejects its arguments.  Whatever they are,
    malformed bracket and non-positive [max_steps] or [accuracy] included,
    every operation makes at most [max_steps] passes through its loop (none
    when [max_steps <= 0]) and returns its Result; the only exceptions an
    operation raises by itself are the arithmetic ones of the loop body of
    [parabolic_search], never a precondition violation. *)
Theorem no_argument_check {F V : Type} `{Scalar F} `{Vector F V}
  (f : F -> F) (a b accuracy : F) (max_steps : Z)
  (m : @method F) (g : V -> F) (df : V -> V) (x0 : V) (flag : bool)
  (accept_test : option ((V -> V) -> V -> F -> bool)) :
  (OptimizeResults.nit (binary_search f a b accuracy max_steps)
   <= Z.to_nat max_steps)%nat /\
  (OptimizeResults.nit (golden_search f a b accuracy max_steps)
   <= Z.to_nat max_steps)%nat /\
  (OptimizeResults.nit (descent m g df x0 max_steps accuracy flag accept_test)
   <= Z.to_nat max_steps)%nat /\
  match parabolic_search f a b accuracy max_steps with
  | Returned r => (OptimizeResults.nit r <= Z.to_nat max_steps)%nat
  | Raised e => e = ZeroDivisionError \/ e = OverflowError
  end.
Proof.
  repeat split.
  - unfold binary_search; simpl.
    destruct (bs_loop_iterate f accuracy (Z.to_nat max_steps) (bs_init a b))
      as (k & Hk & Hn & _).
    rewrite Hn. simpl. exact Hk.
  - unfold golden_search; simpl.
    destruct (gs_loop_iterate f accuracy (Z.to_nat max_steps) (gs_init a b))
      as (k & Hk & Hn & _).
    rewrite Hn. simpl. exact Hk.
  - rewrite descent_loops. unfold gd_result; simpl.
    apply (descent_loop_budget (method_step m g df) df accuracy flag
             accept_test (Z.to_nat max_steps) (gd_init x0)).
  - unfold parabolic_search.
    pose proof (ps_loop_budget f accuracy (Z.to_nat max_steps)
                  (ps_init f a b)) as Hloop.
    destruct (ps_loop f accuracy (Z.to_nat max_steps) (ps_init f a b));
      simpl; exact Hloop.
Qed.

(** ** Brackets *)

Import RealScalar Brackets RealFacts.


(** The condition that this bracket breaks is the one on midpoints: its
    own midpoint is [inf]. *)
Lemma huge_bracket_midpoints :
  ~ midpoints (F := PrimFloat.float) HugeBracket.lo HugeBracket.hi.
Proof.
  intros Hmid.
  assert (Hlo : within HugeBracket.lo HugeBracket.hi HugeBracket.lo)
    by (split; vm_compute; reflexivity).
  assert (Hhi : within HugeBracket.lo HugeBracket.hi HugeBracket.hi)
    by (split; vm_compute; reflexivity).
  destruct (Hmid _ _ Hlo Hhi (proj2 Hlo)) as ((_ & Habove) & _).
  vm_compute in Habove. discriminate.
Qed.



(** C10 (as stated) fails on Python floats.  On the bracket
    [[2.0**1023, 1.5 * 2.0**1023]] the sum [a + b] overflows: the initial
    [c] of [binary_search] is [inf], and both searches, run with their
    default [accuracy] and [max_steps] on [f = lambda x: x], return
    [x = inf], which is not in the bracket. *)
Lemma solution_outside_bracket_counterexample :
  let x_b := OptimizeResults.x
               (binary_search HugeBracket.identity HugeBracket.lo
                  HugeBracket.hi default_accuracy 1000) in
  let x_g := OptimizeResults.x
               (golden_search HugeBracket.identity HugeBracket.lo
                  HugeBracket.hi default_accuracy 1000) in
  s_leb HugeBracket.lo HugeBracket.hi = true /\
  bs_c (bs_init HugeBracket.lo HugeBracket.hi) = PrimFloat.infinity /\
  x_b = PrimFloat.infinity /\ s_leb x_b HugeBracket.hi = false /\
  x_g = PrimFloat.infinity /\ s_leb x_g HugeBracket.hi = false.
Proof. vm_compute. repeat split. Qed.

(** C10 (amended).  Over any scalars on which [<=] is an order, and from
    any bracket with [a <= b]: if midpoints of values of [[a, b]] lie
    between them, the loop of [binary_search] keeps
    [a0 <= a <= c <= b <= b0] for the initial bracket [[a0, b0]], and the
    returned solution lies in [[a0, b0]]; if the points [golden_search]
    computes from values of [[a0, b0]] stay in [[a0, b0]], its loop keeps
    the two ends and the two probe points of its bracket in [[a0, b0]], and
    the returned solution lies in [[a0, b0]]; whatever [f], [accuracy] and
    [max_steps] are. *)
Theorem solution_within_initial_bracket {F : Type} `{Scalar F}
  (f : F -> F) (a b accuracy : F) (max_steps : Z) :
  s_le a b -> ordered F ->
  (midpoints a b ->
   within a b (OptimizeResults.x (binary_search f a b accuracy max_steps)) /\
   forall k : nat, bs_inside a b (iterate (bs_body f) k (bs_init a b))) /\
  (interior_points a b ->
   within a b (OptimizeResults.x (golden_search f a b accuracy max_steps)) /\
   forall k : nat, gs_inside a b (iterate (gs_body f) k (gs_init a b))).
Proof.
  intros Hab Hord. split.
  - intros Hmid.
    assert (Hbs : forall k : nat,
              bs_inside a b (iterate (bs_body f) k (bs_init a b))).
    { intro k. apply (@iterate_invariant _ (bs_inside a b) (bs_body f)).
      - intros s0 Hs0. exact (@bs_body_inside F _ f a b s0 Hord Hmid Hs0).
      - exact (@bs_init_inside F _ a b Hord Hmid Hab). }
    split; [|exact Hbs].
    unfold binary_search; simpl.
    destruct (bs_loop_iterate f accuracy (Z.to_nat max_steps) (bs_init a b))
      as (k & _ & _ & _ & _ & Hc).
    rewrite Hc.
    exact (proj1 (proj2 (@bs_inside_within F _ a b _ Hord (Hbs k)))).
  - intros Hint.
    assert (Hgs : forall k : nat,
              gs_inside a b (iterate (gs_body f) k (gs_init a b))).
    { intro k. apply (@iterate_invariant _ (gs_inside a b) (gs_body f)).
      - intros s0 Hs0. exact (@gs_body_inside F _ f a b s0 Hint Hs0).
      - exact (@gs_init_inside F _ a b Hord Hint Hab). }
    split; [|exact Hgs].
    unfold golden_search; simpl.
    destruct (gs_loop_iterate f accuracy (Z.to_nat max_steps) (gs_init a b))
      as (k & _ & _ & Ha & Hb).
    rewrite Ha, Hb. destruct (Hgs k) as (Hwa & Hwb & _).
    exact (proj2 (proj2 (Hint _ _ Hwa Hwb))).
Qed.

(** In exact arithmetic, on [[0, 4]] with [f(u) = (u - 2) * (u - 2)] and
    the default [accuracy] and [max_steps]: both solutions lie in
    [[0, 4]]. *)
Lemma solution_within_initial_bracket_witness :
  let f := fun u : R => Rmult (Rminus u 2) (Rminus u 2) in
  within 0%R 4%R
    (OptimizeResults.x (binary_search f 0%R 4%R default_accuracy 1000)) /\
  within 0%R 4%R
    (OptimizeResults.x (golden_search f 0%R 4%R default_accuracy 1000)).
Proof.
  intros f.
  destruct (solution_within_initial_bracket f 0%R 4%R default_accuracy 1000)
    as (Hbs & Hgs).
  - apply real_le. lra.
  - exact real_ordered.
  - split.
    + exact (proj1 (Hbs (@real_midpoints 0%R 4%R))).
    + exact (proj1 (Hgs (@real_interior_points 0%R 4%R))).
Defined.

(** * Further properties of [optimize.py] *)

(** ** Evaluation counters *)

Section CounterFacts.

Context {F V : Type} `{Scalar F} `{Vector F V}.

Lemma bs_body_counters (f : F -> F) (s : @bs_state F) :
  bs_njev (bs_body f s) = bs_njev s /\
  (bs_nfev (bs_body f s) = bs_nfev s + 2 \/
   bs_nfev (bs_body f s) = bs_nfev s + 4)%nat.
Proof.
  unfold bs_body. destruct (s_leb _ _); simpl; [auto|].
  destruct (s_leb _ _); simpl; split; auto; right; lia.
Qed.

Lemma bs_loop_counters (f : F -> F) (accuracy : F) :
  forall (n : nat) (s : @bs_state F),
  (2 * bs_nit s <= bs_nfev s <= 4 * bs_nit s)%nat ->
  let s' := bs_loop f accuracy n s in
  (2 * bs_nit s' <= bs_nfev s' <= 4 * bs_nit s')%nat /\
  bs_njev s' = bs_njev s.
Proof.
  induction n as [|n IH]; intros s Hs; simpl; [auto|].
  destruct (bs_stop accuracy s); simpl; [auto|].
  destruct (bs_body_counters f s) as (Hj & Hf).
  destruct (IH (bs_body f s)) as (Hb & Hj').
  - rewrite bs_body_nit. lia.
  - split; [exact Hb|congruence].
Qed.

Lemma gs_loop_counters (f : F -> F) (accuracy : F) :
  forall (n : nat) (s : @gs_state F),
  gs_nfev s = (2 * gs_nit s)%nat ->
  let s' := gs_loop f accuracy n s in
  gs_nfev s' = (2 * gs_nit s')%nat /\ gs_njev s' = gs_njev s.
Proof.
  induction n as [|n IH]; intros s Hs; simpl; [auto|].
  destruct (gs_stop accuracy s); simpl; [auto|].
  destruct (IH (gs_body f s)) as (Hb & Hj).
  - unfold gs_body. destruct (s_leb _ _); simpl; lia.
  - split; [exact Hb|]. rewrite Hj. unfold gs_body.
    destruct (s_leb _ _); reflexivity.
Qed.

Lemma ps_body_counters (f : F -> F) (s s' : @ps_state F) :
  ps_body f s = Returned s' ->
  ps_nfev s' = (ps_nfev s + 1)%nat /\ ps_njev s' = ps_njev s.
Proof.
  unfold ps_body, py_sq, py_div.
  destruct (_ && _); simpl; [discriminate|].
  destruct (_ && _); simpl; [discriminate|].
  destruct (s_eqb _ _); simpl; [discriminate|].
  intros Heq. injection Heq as <-.
  destruct (s_leb _ _); destruct (s_leb _ _); auto.
Qed.

Lemma ps_loop_counters (f : F -> F) (accuracy : F) :
  forall (n : nat) (s s' : @ps_state F),
  ps_loop f accuracy n s = Returned s' ->
  ps_nfev s = ps_nit s ->
  ps_nfev s' = ps_nit s' /\ ps_njev s' = ps_njev s.
Proof.
  induction n as [|n IH]; intros s s'; simpl.
  - intros Heq; injection Heq as <-; auto.
  - destruct (ps_break accuracy s).
    + intros Heq; injection Heq as <-; auto.
    + destruct (ps_body f s) as [s1|e] eqn:Hbody; simpl; [|discriminate].
      intros Hloop Hs.
      destruct (ps_body_counters f s s1 Hbody) as (Hf & Hj).
      destruct (IH _ _ Hloop) as (Hf' & Hj').
      * rewrite Hf, (ps_body_nit f s Hbody). lia.
      * split; [exact Hf'|congruence].
Qed.

Lemma descent_loop_njev (step df : V -> V) (accuracy : F) (flag : bool)
  (accept_test : option ((V -> V) -> V -> F -> bool)) :
  forall (n : nat) (s : @gd_state V),
  gd_njev s = gd_nit s ->
  gd_njev (descent_loop step df accuracy flag accept_test n s) =
  gd_nit (descent_loop step df accuracy flag accept_test n s).
Proof.
  induction n as [|n IH]; intros s Hs; simpl; [exact Hs|].
  destruct (gd_record_counters flag s) as (_ & _ & Hj & Hi).
  destruct (accepted _ _ _ _); simpl; [congruence|].
  apply IH. simpl. congruence.
Qed.

End CounterFacts.

(** X1.  [binary_search] reports between two and four evaluations of [f]
    per iteration, and no gradient or Hessian evaluation. *)
Theorem binary_search_nfev_bounds {F : Type} `{Scalar F}
  (f : F -> F) (a b accuracy : F) (max_steps : Z) :
  let r := binary_search f a b accuracy max_steps in
  (2 * OptimizeResults.nit r <= OptimizeResults.nfev r
   <= 4 * OptimizeResults.nit r)%nat /\
  OptimizeResults.njev r = 0%nat /\ OptimizeResults.nhev r = 0%nat.
Proof.
  intro r. unfold r, binary_search; simpl.
  destruct (bs_loop_counters f accuracy (Z.to_nat max_steps) (bs_init a b))
    as (Hb & Hj); [simpl; lia|].
  split; [exact Hb|]. split; [exact Hj|reflexivity].
Qed.

(** X2.  [golden_search] reports exactly two evaluations of [f] per
    iteration, and no gradient or Hessian evaluation. *)
Theorem golden_search_nfev {F : Type} `{Scalar F}
  (f : F -> F) (a b accuracy : F) (max_steps : Z) :
  let r := golden_search f a b accuracy max_steps in
  OptimizeResults.nfev r = (2 * OptimizeResults.nit r)%nat /\
  OptimizeResults.njev r = 0%nat /\ OptimizeResults.nhev r = 0%nat.
Proof.
  intro r. unfold r, golden_search; simpl.
  destruct (gs_loop_counters f accuracy (Z.to_nat max_steps) (gs_init a b))
    as (Hb & Hj); [reflexivity|].
  split; [exact Hb|]. split; [exact Hj|reflexivity].
Qed.

(** X3.  Whenever [parabolic_search] returns, it reports one evaluation of
    [f] per iteration: the three evaluations at the initial triple and the
    one at the returned solution are not counted. *)
Theorem parabolic_search_nfev {F : Type} `{Scalar F}
  (f : F -> F) (a b accuracy : F) (max_steps : Z)
  (r : OptimizeResults.t F F F) :
  parabolic_search f a b accuracy max_steps = Returned r ->
  OptimizeResults.nfev r = OptimizeResults.nit r /\
  OptimizeResults.njev r = 0%nat.
Proof.
  unfold parabolic_search.
  destruct (ps_loop f accuracy (Z.to_nat max_steps) (ps_init f a b))
    as [s|e] eqn:Hloop; simpl; [|discriminate].
  intros Heq. injection Heq as <-. simpl.
  apply (ps_loop_counters f accuracy _ _ _ Hloop). reflexivity.
Qed.

(** One pass on [(x - 2)**2] from the bracket [[0, 1]], within an
    [accuracy] of 2. *)
Lemma parabolic_search_nfev_witness :
  exists r : OptimizeResults.t PrimFloat.float PrimFloat.float PrimFloat.float,
    parabolic_search parabola (s_of_Z 0) (s_of_Z 1) (s_of_Z 2) 1 = Returned r /\
    OptimizeResults.nit r = 1%nat /\
    OptimizeResults.nfev r = OptimizeResults.nit r /\
    OptimizeResults.njev r = 0%nat.
Proof.
  eexists. split; [vm_compute; reflexivity|]. split; [reflexivity|].
  apply (parabolic_search_nfev (F := PrimFloat.float) parabola
           (s_of_Z 0) (s_of_Z 1) (s_of_Z 2) 1).
  vm_compute. reflexivity.
Defined.

(** X4.  Both descent drivers report one gradient evaluation per
    iteration and no evaluation of [f]: neither the evaluations of the
    final Result nor, in [steepest_gradient_descent], those of the inner
    [golden_search] are counted. *)
Theorem descent_counters {F V : Type} `{Scalar F} `{Vector F V}
  (m : @method F) (f : V -> F) (df : V -> V) (x0 : V) (max_steps : Z)
  (accuracy : F) (flag : bool)
  (accept_test : option ((V -> V) -> V -> F -> bool)) :
  let r := descent m f df x0 max_steps accuracy flag accept_test in
  OptimizeResults.njev r = OptimizeResults.nit r /\
  OptimizeResults.nfev r = 0%nat /\
  OptimizeResults.nhev r = 0%nat.
Proof.
  intro r. unfold r. rewrite descent_loops. unfold gd_result; simpl.
  split; [apply descent_loop_njev; reflexivity|].
  split; [|reflexivity].
  now rewrite descent_loop_nfev.
Qed.

(** ** What the trajectory holds *)

Section TrajectoryContents.

Context {F V : Type} `{Scalar F} `{Vector F V}.

Variables step df : V -> V.
Variable accuracy : F.
Variable accept_test : option ((V -> V) -> V -> F -> bool).

Lemma iterates_shift (k : nat) (x : V) :
  map (fun i => iterate step i x) (seq 0 (S k)) =
  x :: map (fun i => iterate step i (step x)) (seq 0 k).
Proof.
  simpl. f_equal. rewrite <- seq_shift, map_map.
  apply map_ext. intro i. apply iterate_shift.
Qed.

(** The entries appended by the loop are the successive iterates, up to
    the accepted one when there is one. *)
Lemma descent_loop_trajectory_entries : forall (n : nat) (s : @gd_state V),
  gd_success s = false ->
  let s' := descent_loop step df accuracy true accept_test n s in
  exists k,
    gd_nit s' = (gd_nit s + k)%nat /\
    gd_trajectory s' =
      gd_trajectory s ++
      map (fun i => iterate step i (gd_x s))
        (seq 0 (k + (if gd_success s' then 1 else 0))).
Proof.
  induction n as [|n IH]; intros s Hs; simpl.
  - exists 0%nat. rewrite Hs. simpl. now rewrite Nat.add_0_r, app_nil_r.
  - destruct (accepted _ _ _ _); simpl.
    + exists 0%nat. now rewrite Nat.add_0_r.
    + match goal with |- context [descent_loop _ _ _ _ _ n ?s0] =>
        destruct (IH s0 Hs) as (k & Hk & Ht) end.
      simpl in Hk, Ht. exists (S k). split; [lia|].
      rewrite Ht, <- app_assoc. f_equal.
      change (S k + ?d)%nat with (S (k + d)).
      now rewrite iterates_shift.
Qed.

(** Recording the trajectory changes nothing else in the state. *)
Lemma descent_loop_flag : forall (n : nat) (s1 s0 : @gd_state V),
  gd_x s1 = gd_x s0 -> gd_success s1 = gd_success s0 ->
  gd_nfev s1 = gd_nfev s0 -> gd_njev s1 = gd_njev s0 ->
  gd_nit s1 = gd_nit s0 -> gd_trajectory s0 = [] ->
  let r1 := descent_loop step df accuracy true accept_test n s1 in
  let r0 := descent_loop step df accuracy false accept_test n s0 in
  gd_x r1 = gd_x r0 /\ gd_success r1 = gd_success r0 /\
  gd_nfev r1 = gd_nfev r0 /\ gd_njev r1 = gd_njev r0 /\
  gd_nit r1 = gd_nit r0 /\ gd_trajectory r0 = [].
Proof.
  induction n as [|n IH]; intros s1 s0 Hx Hs Hf Hj Hi Ht; simpl; [auto 10|].
  rewrite Hx. destruct (accepted _ _ _ _); simpl; [auto 10|].
  apply IH; simpl; congruence.
Qed.

End TrajectoryContents.

(** X5.  With [trajectory_flag = true], the trajectory returned by either
    driver is the list of the successive iterates [x_0 = x0],
    [x_(i+1) = step x_i]: one per iteration made, followed by the accepted
    iterate (the returned solution) when the loop stopped through
    [accept_test]. *)
Theorem trajectory_entries {F V : Type} `{Scalar F} `{Vector F V}
  (m : @method F) (f : V -> F) (df : V -> V) (x0 : V) (max_steps : Z)
  (accuracy : F) (accept_test : option ((V -> V) -> V -> F -> bool)) :
  let r := descent m f df x0 max_steps accuracy true accept_test in
  OptimizeResults.trajectory r =
  Some (map (fun i => iterate (method_step m f df) i x0)
          (seq 0 (OptimizeResults.nit r +
                  (if OptimizeResults.success r then 1 else 0)))).
Proof.
  intro r. unfold r. rewrite descent_loops. unfold gd_result; simpl.
  destruct (descent_loop_trajectory_entries (method_step m f df) df accuracy
              accept_test (Z.to_nat max_steps) (gd_init x0) eq_refl)
    as (k & Hk & Ht).
  simpl in Hk, Ht. rewrite Ht, Hk. reflexivity.
Qed.

(** X6.  Recording the trajectory does not change the computation: with
    and without [trajectory_flag] either driver returns the same solution,
    [success], objective value, gradient and counters, and without the flag
    no trajectory is returned. *)
Theorem trajectory_flag_frame {F V : Type} `{Scalar F} `{Vector F V}
  (m : @method F) (f : V -> F) (df : V -> V) (x0 : V) (max_steps : Z)
  (accuracy : F) (accept_test : option ((V -> V) -> V -> F -> bool)) :
  let r1 := descent m f df x0 max_steps accuracy true accept_test in
  let r0 := descent m f df x0 max_steps accuracy false accept_test in
  OptimizeResults.x r1 = OptimizeResults.x r0 /\
  OptimizeResults.success r1 = OptimizeResults.success r0 /\
  OptimizeResults.fun_ r1 = OptimizeResults.fun_ r0 /\
  OptimizeResults.jac r1 = OptimizeResults.jac r0 /\
  OptimizeResults.nfev r1 = OptimizeResults.nfev r0 /\
  OptimizeResults.njev r1 = OptimizeResults.njev r0 /\
  OptimizeResults.nit r1 = OptimizeResults.nit r0 /\
  OptimizeResults.trajectory r0 = None.
Proof.
  intros r1 r0. unfold r1, r0. rewrite !descent_loops.
  unfold gd_result; simpl.
  destruct (descent_loop_flag (method_step m f df) df accuracy accept_test
              (Z.to_nat max_steps) (gd_init x0) (gd_init x0)
              eq_refl eq_refl eq_refl eq_refl eq_refl eq_refl)
    as (Hx & Hs & Hf & Hj & Hi & _).
  simpl in Hx, Hs, Hf, Hj, Hi. rewrite Hx, Hs, Hf, Hj, Hi. auto 10.
Qed.

(** ** The budget *)

Section BudgetFacts.

Context {F V : Type} `{Scalar F} `{Vector F V}.

Lemma bs_loop_budget_left (f : F -> F) (accuracy : F) :
  forall (n : nat) (s : @bs_state F),
  bs_success s = false ->
  let s' := bs_loop f accuracy n s in
  (bs_success s' = true /\ (bs_nit s' < bs_nit s + n)%nat) \/
  (bs_success s' = false /\ bs_nit s' = (bs_nit s + n)%nat).
Proof.
  induction n as [|n IH]; intros s Hs; simpl.
  - right. split; [exact Hs|lia].
  - destruct (bs_stop accuracy s); simpl; [left; split; [reflexivity|lia]|].
    destruct (IH (bs_body f s)) as [(Ht & Hn)|(Ht & Hn)].
    + rewrite bs_body_success. exact Hs.
    + left. rewrite bs_body_nit in Hn. split; [exact Ht|lia].
    + right. rewrite bs_body_nit in Hn. split; [exact Ht|lia].
Qed.

Lemma gs_loop_budget_left (f : F -> F) (accuracy : F) :
  forall (n : nat) (s : @gs_state F),
  gs_success s = false ->
  let s' := gs_loop f accuracy n s in
  (gs_success s' = true /\ (gs_nit s' < gs_nit s + n)%nat) \/
  (gs_success s' = false /\ gs_nit s' = (gs_nit s + n)%nat).
Proof.
  induction n as [|n IH]; intros s Hs; simpl.
  - right. split; [exact Hs|lia].
  - destruct (gs_stop accuracy s); simpl; [left; split; [reflexivity|lia]|].
    destruct (IH (gs_body f s)) as [(Ht & Hn)|(Ht & Hn)].
    + rewrite gs_body_success. exact Hs.
    + left. rewrite gs_body_nit in Hn. split; [exact Ht|lia].
    + right. rewrite gs_body_nit in Hn. split; [exact Ht|lia].
Qed.

Lemma descent_loop_budget_left (step df : V -> V) (accuracy : F) (flag : bool)
  (accept_test : option ((V -> V) -> V -> F -> bool)) :
  forall (n : nat) (s : @gd_state V),
  gd_success s = false ->
  let s' := descent_loop step df accuracy flag accept_test n s in
  (gd_success s' = true /\ (gd_nit s' < gd_nit s + n)%nat) \/
  (gd_success s' = false /\ gd_nit s' = (gd_nit s + n)%nat).
Proof.
  induction n as [|n IH]; intros s Hs; simpl.
  - right. split; [exact Hs|lia].
  - destruct (gd_record_counters flag s) as (Hs0 & _ & _ & Hi).
    destruct (accepted _ _ _ _); simpl; [left; split; [reflexivity|lia]|].
    match goal with |- context [descent_loop _ _ _ _ _ n ?s0] =>
      destruct (IH s0) as [(Ht & Hn)|(Ht & Hn)] end.
    + simpl. congruence.
    + left. simpl in Hn. split; [exact Ht|lia].
    + right. simpl in Hn. split; [exact Ht|lia].
Qed.

(** A loop that stopped through its test does the same with a larger
    budget. *)
Lemma bs_loop_more (f : F -> F) (accuracy : F) (d : nat) :
  forall (n : nat) (s : @bs_state F),
  bs_success s = false ->
  bs_success (bs_loop f accuracy n s) = true ->
  bs_loop f accuracy (n + d) s = bs_loop f accuracy n s.
Proof.
  induction n as [|n IH]; intros s Hs; simpl; [congruence|].
  destruct (bs_stop accuracy s); [reflexivity|].
  apply IH. now rewrite bs_body_success.
Qed.

Lemma gs_loop_more (f : F -> F) (accuracy : F) (d : nat) :
  forall (n : nat) (s : @gs_state F),
  gs_success s = false ->
  gs_success (gs_loop f accuracy n s) = true ->
  gs_loop f accuracy (n + d) s = gs_loop f accuracy n s.
Proof.
  induction n as [|n IH]; intros s Hs; simpl; [congruence|].
  destruct (gs_stop accuracy s); [reflexivity|].
  apply IH. now rewrite gs_body_success.
Qed.

Lemma descent_loop_more (step df : V -> V) (accuracy : F) (flag : bool)
  (accept_test : option ((V -> V) -> V -> F -> bool)) (d : nat) :
  forall (n : nat) (s : @gd_state V),
  gd_success s = false ->
  gd_success (descent_loop step df accuracy flag accept_test n s) = true ->
  descent_loop step df accuracy flag accept_test (n + d) s =
  descent_loop step df accuracy flag accept_test n s.
Proof.
  induction n as [|n IH]; intros s Hs; simpl; [congruence|].
  destruct (gd_record_counters flag s) as (Hs0 & _).
  destruct (accepted _ _ _ _); [reflexivity|].
  apply IH. simpl. congruence.
Qed.

End BudgetFacts.

(** X7.  For [binary_search], [golden_search] and the two descent drivers
    the iteration count tells how the loop ended: [success] is [true]
    exactly when fewer than [max_steps] iterations were made, and a failed
    call has made all of them. *)
Theorem success_iff_budget_left {F V : Type} `{Scalar F} `{Vector F V}
  (f : F -> F) (a b accuracy : F) (max_steps : Z)
  (m : @method F) (g : V -> F) (df : V -> V) (x0 : V) (flag : bool)
  (accept_test : option ((V -> V) -> V -> F -> bool)) :
  let bs := binary_search f a b accuracy max_steps in
  let gs := golden_search f a b accuracy max_steps in
  let ds := descent m g df x0 max_steps accuracy flag accept_test in
  (if OptimizeResults.success bs
   then (OptimizeResults.nit bs < Z.to_nat max_steps)%nat
   else OptimizeResults.nit bs = Z.to_nat max_steps) /\
  (if OptimizeResults.success gs
   then (OptimizeResults.nit gs < Z.to_nat max_steps)%nat
   else OptimizeResults.nit gs = Z.to_nat max_steps) /\
  (if OptimizeResults.success ds
   then (OptimizeResults.nit ds < Z.to_nat max_steps)%nat
   else OptimizeResults.nit ds = Z.to_nat max_steps).
Proof.
  intros bs gs ds. unfold bs, gs, ds. rewrite descent_loops.
  unfold binary_search, golden_search, gd_result; simpl.
  repeat split.
  - destruct (bs_loop_budget_left f accuracy (Z.to_nat max_steps)
                (bs_init a b) eq_refl) as [(Ht & Hn)|(Ht & Hn)];
      rewrite Ht; exact Hn.
  - destruct (gs_loop_budget_left f accuracy (Z.to_nat max_steps)
                (gs_init a b) eq_refl) as [(Ht & Hn)|(Ht & Hn)];
      rewrite Ht; exact Hn.
  - destruct (descent_loop_budget_left (method_step m g df) df accuracy flag
                accept_test (Z.to_nat max_steps) (gd_init x0) eq_refl)
      as [(Ht & Hn)|(Ht & Hn)]; rewrite Ht; exact Hn.
Qed.

(** X8.  A successful [binary_search] does not depend on the budget: any
    larger [max_steps] gives the same Result. *)
Theorem binary_search_budget_monotone {F : Type} `{Scalar F}
  (f : F -> F) (a b accuracy : F) (max_steps more_steps : Z) :
  (max_steps <= more_steps)%Z ->
  OptimizeResults.success (binary_search f a b accuracy max_steps) = true ->
  binary_search f a b accuracy more_steps =
  binary_search f a b accuracy max_steps.
Proof.
  intros Hle Hok. unfold binary_search in *. simpl in Hok.
  replace (Z.to_nat more_steps)
    with (Z.to_nat max_steps + (Z.to_nat more_steps - Z.to_nat max_steps))%nat
    by lia.
  now rewrite bs_loop_more.
Qed.

Lemma binary_search_budget_monotone_witness :
  binary_search (F := PrimFloat.float) parabola (s_of_Z 0) (s_of_Z 4)
    default_accuracy 2000 =
  binary_search (F := PrimFloat.float) parabola (s_of_Z 0) (s_of_Z 4)
    default_accuracy 50.
Proof.
  apply (binary_search_budget_monotone (F := PrimFloat.float) parabola
           (s_of_Z 0) (s_of_Z 4) default_accuracy 50 2000).
  - lia.
  - vm_compute. reflexivity.
Defined.

(** X9.  A successful [golden_search] does not depend on the budget. *)
Theorem golden_search_budget_monotone {F : Type} `{Scalar F}
  (f : F -> F) (a b accuracy : F) (max_steps more_steps : Z) :
  (max_steps <= more_steps)%Z ->
  OptimizeResults.success (golden_search f a b accuracy max_steps) = true ->
  golden_search f a b accuracy more_steps =
  golden_search f a b accuracy max_steps.
Proof.
  intros Hle Hok. unfold golden_search in *. simpl in Hok.
  replace (Z.to_nat more_steps)
    with (Z.to_nat max_steps + (Z.to_nat more_steps - Z.to_nat max_steps))%nat
    by lia.
  now rewrite gs_loop_more.
Qed.

Lemma golden_search_budget_monotone_witness :
  golden_search (F := PrimFloat.float) parabola (s_of_Z 0) (s_of_Z 4)
    default_accuracy 2000 =
  golden_search (F := PrimFloat.float) parabola (s_of_Z 0) (s_of_Z 4)
    default_accuracy 50.
Proof.
  apply (golden_search_budget_monotone (F := PrimFloat.float) parabola
           (s_of_Z 0) (s_of_Z 4) default_accuracy 50 2000).
  - lia.
  - vm_compute. reflexivity.
Defined.

(** X10.  A successful descent does not depend on the budget: once
    [accept_test] has stopped either driver, any larger [max_steps] gives
    the same Result. *)
Theorem descent_budget_monotone {F V : Type} `{Scalar F} `{Vector F V}
  (m : @method F) (f : V -> F) (df : V -> V) (x0 : V)
  (max_steps more_steps : Z) (accuracy : F) (flag : bool)
  (accept_test : option ((V -> V) -> V -> F -> bool)) :
  (max_steps <= more_steps)%Z ->
  OptimizeResults.success
    (descent m f df x0 max_steps accuracy flag accept_test) = true ->
  descent m f df x0 more_steps accuracy flag accept_test =
  descent m f df x0 max_steps accuracy flag accept_test.
Proof.
  intros Hle Hok. rewrite !descent_loops in *.
  unfold gd_result in Hok; simpl in Hok.
  replace (Z.to_nat more_steps)
    with (Z.to_nat max_steps + (Z.to_nat more_steps - Z.to_nat max_steps))%nat
    by lia.
  now rewrite descent_loop_more.
Qed.

Lemma descent_budget_monotone_witness :
  descent (F := PrimFloat.float) Steepest_gradient_descent f df
    [s_of_Z 4; s_of_Z 3] 2000 (s_div (s_of_Z 1) (s_of_Z 1000000)) true
    (Some accept_test) =
  descent (F := PrimFloat.float) Steepest_gradient_descent f df
    [s_of_Z 4; s_of_Z 3] 5 (s_div (s_of_Z 1) (s_of_Z 1000000)) true
    (Some accept_test).
Proof.
  apply (descent_budget_monotone (F := PrimFloat.float)
           Steepest_gradient_descent f df [s_of_Z 4; s_of_Z 3] 5 2000
           (s_div (s_of_Z 1) (s_of_Z 1000000)) true (Some accept_test)).
  - lia.
  - vm_compute. reflexivity.
Defined.

(** * The line search of [steepest_gradient_descent] on binary64 *)

Import Branches.

Section BranchFacts.

Context {F : Type} `{Scalar F}.

Variable f : F -> F.

(** A run of the loop body follows one of the sequences of branches. *)
Lemma gs_paths_sound (node leaf : F -> F -> F -> F -> bool) :
  forall (n : nat) (s : @gs_state F),
  gs_paths node leaf n (gs_a s) (gs_b s) (gs_y s) (gs_z s) = true ->
  forall k : nat, (k <= n)%nat ->
  let t := iterate (gs_body f) k s in
  ((k < n)%nat -> node (gs_a t) (gs_b t) (gs_y t) (gs_z t) = true) /\
  (k = n -> leaf (gs_a t) (gs_b t) (gs_y t) (gs_z t) = true).
Proof.
  induction n as [|n IH]; intros s Hpaths k Hk; simpl in Hpaths.
  - assert (k = 0)%nat as -> by lia. split; [lia|]. intros _. exact Hpaths.
  - apply andb_prop in Hpaths. destruct Hpaths as (Hnode & Hsub).
    apply andb_prop in Hsub. destruct Hsub as (Hthen & Helse).
    destruct k as [|k].
    + split; [intros _; exact Hnode|discriminate].
    + rewrite iterate_shift.
      assert (Hbody : gs_paths node leaf n (gs_a (gs_body f s))
                        (gs_b (gs_body f s)) (gs_y (gs_body f s))
                        (gs_z (gs_body f s)) = true).
      { unfold gs_body. destruct (s_leb _ _); simpl; assumption. }
      destruct (IH (gs_body f s) Hbody k ltac:(lia)) as (Hlt & Heq).
      split; [intros Hlt'; apply Hlt; lia|intros Heq'; apply Heq; lia].
Qed.

Lemma gs_iterate_counters (k : nat) (s : @gs_state F) :
  gs_nit (iterate (gs_body f) k s) = (gs_nit s + k)%nat /\
  gs_nfev (iterate (gs_body f) k s) = (gs_nfev s + 2 * k)%nat.
Proof.
  induction k as [|k (IHn & IHe)].
  - unfold iterate; simpl. lia.
  - change (iterate (gs_body f) (S k) s)
      with (gs_body f (iterate (gs_body f) k s)).
    rewrite gs_body_nit, IHn. split; [lia|].
    assert (Hbody : forall t : @gs_state F,
              gs_nfev (gs_body f t) = (gs_nfev t + 2)%nat).
    { intro t. unfold gs_body. destruct (s_leb _ _); reflexivity. }
    rewrite Hbody, IHe. lia.
Qed.

(** The loop stops at the first pass at whose head the width test holds,
    when the budget reaches that far. *)
Lemma gs_loop_stop_at (accuracy : F) :
  forall (k n : nat) (s : @gs_state F),
  (k < n)%nat ->
  (forall j, (j < k)%nat ->
     gs_stop accuracy (iterate (gs_body f) j s) = false) ->
  gs_stop accuracy (iterate (gs_body f) k s) = true ->
  let t := iterate (gs_body f) k s in
  gs_loop f accuracy n s =
  mk_gs true (gs_nfev t) (gs_njev t) (gs_nit t)
    (gs_a t) (gs_b t) (gs_y t) (gs_z t).
Proof.
  induction k as [|k IH]; intros n s Hk Hbefore Hat;
    destruct n as [|n]; try lia; simpl.
  - unfold iterate in Hat; simpl in Hat. now rewrite Hat.
  - assert (H0 : gs_stop accuracy s = false) by (apply (Hbefore 0%nat); lia).
    rewrite H0, iterate_shift. apply IH; [lia| |].
    + intros j Hj. rewrite <- iterate_shift. apply Hbefore. lia.
    + rewrite <- iterate_shift. exact Hat.
Qed.

(** What [golden_search] returns when its loop stops at pass [k]. *)
Lemma golden_search_stop_at (a b accuracy : F) (max_steps : Z) (k : nat) :
  (k < Z.to_nat max_steps)%nat ->
  (forall j, (j < k)%nat ->
     gs_stop accuracy (iterate (gs_body f) j (gs_init a b)) = false) ->
  gs_stop accuracy (iterate (gs_body f) k (gs_init a b)) = true ->
  let t := iterate (gs_body f) k (gs_init a b) in
  let r := golden_search f a b accuracy max_steps in
  OptimizeResults.success r = true /\
  OptimizeResults.nit r = k /\
  OptimizeResults.nfev r = (2 * k)%nat /\
  OptimizeResults.x r = s_div (s_add (gs_a t) (gs_b t)) (s_of_Z 2).
Proof.
  intros Hk Hbefore Hat t r.
  pose proof (gs_loop_stop_at accuracy k (Z.to_nat max_steps)
                (gs_init a b) Hk Hbefore Hat) as Hloop.
  destruct (gs_iterate_counters k (gs_init a b)) as (Hnit & Hnfev).
  cbv zeta in Hloop. fold t in Hloop, Hnit, Hnfev.
  unfold r, golden_search. cbv zeta. rewrite Hloop.
  cbn [OptimizeResults.success OptimizeResults.nit OptimizeResults.nfev
       OptimizeResults.x gs_success gs_nfev gs_nit gs_a gs_b].
  rewrite Hnit, Hnfev. cbn [gs_nit gs_nfev gs_init].
  repeat split; reflexivity.
Qed.

End BranchFacts.

Section UnitSearch.

Local Abbreviation float := PrimFloat.float.

(** On binary64, along every sequence of branches from the bracket
    [[0, 1]]: the width test with [accuracy = 1e-5] fails at the head of
    the first 24 passes and holds after them. *)
Lemma unit_paths :
  let s := gs_init (F := float) (s_of_Z 0) (s_of_Z 1) in
  gs_paths (unit_node default_accuracy) (unit_leaf default_accuracy) 24
    (gs_a s) (gs_b s) (gs_y s) (gs_z s) = true.
Proof. vm_cast_no_check (eq_refl true). Qed.

Lemma unit_node_true (accuracy a b y z : float) :
  unit_node accuracy a b y z = true ->
  s_leb (s_sub b a) accuracy = false /\
  s_leb (s_of_Z 0) a = true /\ s_leb a y = true /\ s_leb y z = true /\
  s_leb z b = true /\ s_leb b (s_of_Z 1) = true /\
  s_leb (s_sub z a) (s_sub b a) = true /\
  s_leb (s_sub b y) (s_sub b a) = true.
Proof.
  unfold unit_node. intros Hn.
  repeat (apply andb_prop in Hn; destruct Hn as (Hn & ?)).
  apply negb_true_iff in Hn. repeat split; assumption.
Qed.

Lemma unit_leaf_true (accuracy a b y z : float) :
  unit_leaf accuracy a b y z = true ->
  s_leb (s_sub b a) accuracy = true /\
  s_leb (s_of_Z 0) a = true /\ s_leb a b = true /\
  s_leb b (s_of_Z 1) = true /\
  s_leb (s_of_Z 0) (s_div (s_add a b) (s_of_Z 2)) = true /\
  s_leb (s_div (s_add a b) (s_of_Z 2)) (s_of_Z 1) = true.
Proof.
  unfold unit_leaf. intros Hn.
  repeat (apply andb_prop in Hn; destruct Hn as (Hn & ?)).
  repeat split; assumption.
Qed.

Variable f : float -> float.

Lemma unit_search_node (k : nat) :
  (k < 24)%nat ->
  let s := iterate (gs_body f) k (gs_init (s_of_Z 0) (s_of_Z 1)) in
  unit_node default_accuracy (gs_a s) (gs_b s) (gs_y s) (gs_z s) = true.
Proof.
  intros Hk.
  apply (gs_paths_sound f (unit_node default_accuracy)
           (unit_leaf default_accuracy) 24
           (gs_init (s_of_Z 0) (s_of_Z 1)) unit_paths k); lia.
Qed.

Lemma unit_search_leaf :
  let s := iterate (gs_body f) 24 (gs_init (s_of_Z 0) (s_of_Z 1)) in
  unit_leaf default_accuracy (gs_a s) (gs_b s) (gs_y s) (gs_z s) = true.
Proof.
  apply (gs_paths_sound f (unit_node default_accuracy)
           (unit_leaf default_accuracy) 24
           (gs_init (s_of_Z 0) (s_of_Z 1)) unit_paths 24); lia.
Qed.

End UnitSearch.

(** X14.  On binary64 and whatever [f] is, the search made by
    [steepest_gradient_descent] ([golden_search] from the bracket [[0, 1]]
    with [accuracy = 1e-5]) has, at the head of each of its first 24
    passes, a bracket still wider than [accuracy] with
    [0 <= a <= y <= z <= b <= 1], and the pass does not widen the
    bracket. *)
Theorem golden_search_unit_bracket (f : PrimFloat.float -> PrimFloat.float)
  (k : nat) :
  (k < 24)%nat ->
  let s := iterate (gs_body f) k (gs_init (s_of_Z 0) (s_of_Z 1)) in
  gs_stop default_accuracy s = false /\
  s_leb (s_of_Z 0) (gs_a s) = true /\
  s_leb (gs_a s) (gs_y s) = true /\
  s_leb (gs_y s) (gs_z s) = true /\
  s_leb (gs_z s) (gs_b s) = true /\
  s_leb (gs_b s) (s_of_Z 1) = true /\
  s_leb (s_sub (gs_b (gs_body f s)) (gs_a (gs_body f s)))
        (s_sub (gs_b s) (gs_a s)) = true.
Proof.
  intros Hk s.
  destruct (unit_node_true _ _ _ _ _ (unit_search_node f k Hk))
    as (Hstop & H0 & Hay & Hyz & Hzb & H1 & Hthen & Helse).
  fold s in Hstop, H0, Hay, Hyz, Hzb, H1, Hthen, Helse.
  repeat (split; [assumption|]).
  unfold gs_body. destruct (s_leb (f _) (f _)); simpl; assumption.
Qed.

Lemma golden_search_unit_bracket_witness :
  (3 < 24)%nat /\
  let s := iterate (gs_body parabola) 3
             (gs_init (F := PrimFloat.float) (s_of_Z 0) (s_of_Z 1)) in
  gs_stop default_accuracy s = false /\
  s_leb (s_sub (gs_b (gs_body parabola s)) (gs_a (gs_body parabola s)))
        (s_sub (gs_b s) (gs_a s)) = true.
Proof.
  split; [lia|].
  destruct (golden_search_unit_bracket parabola 3 ltac:(lia))
    as (Hstop & _ & _ & _ & _ & _ & Hwidth).
  split; [exact Hstop|exact Hwidth].
Defined.

(** X17.  On binary64 the inner line search of [steepest_gradient_descent]
    always succeeds, after exactly 24 iterations and 48 evaluations of the
    objective whatever [f], [x] and the gradient are, and the step length
    it returns lies in [[0, 1]]: the update of the driver is a
    [gradient_descent] update with that step length. *)
Theorem steepest_step_length {V : Type} `{Vector PrimFloat.float V}
  (f : V -> PrimFloat.float) (df : V -> V) (x : V) :
  let line := golden_search (fun alpha => f (v_sub x (v_scale alpha (df x))))
                (s_of_Z 0) (s_of_Z 1) default_accuracy 1000 in
  OptimizeResults.success line = true /\
  OptimizeResults.nit line = 24%nat /\
  OptimizeResults.nfev line = 48%nat /\
  s_leb (s_of_Z 0) (OptimizeResults.x line) = true /\
  s_leb (OptimizeResults.x line) (s_of_Z 1) = true /\
  sgd_step f df x = gd_step df (OptimizeResults.x line) x.
Proof.
  intro line.
  set (g := fun alpha => f (v_sub x (v_scale alpha (df x)))) in *.
  assert (Hbudget : (24 < Z.to_nat 1000)%nat) by (vm_compute; lia).
  assert (Hbefore : forall j, (j < 24)%nat ->
            gs_stop default_accuracy
              (iterate (gs_body g) j (gs_init (s_of_Z 0) (s_of_Z 1))) = false).
  { intros j Hj.
    destruct (unit_node_true _ _ _ _ _ (unit_search_node g j Hj))
      as (Hstop & _). exact Hstop. }
  destruct (unit_leaf_true _ _ _ _ _ (unit_search_leaf g))
    as (Hat & _ & _ & _ & Hlo & Hhi).
  destruct (golden_search_stop_at g (s_of_Z 0) (s_of_Z 1) default_accuracy
              1000 24 Hbudget Hbefore Hat) as (Hok & Hnit & Hnfev & Hx).
  fold line in Hok, Hnit, Hnfev, Hx.
  split; [exact Hok|]. split; [exact Hnit|]. split; [exact Hnfev|].
  rewrite Hx. split; [exact Hlo|]. split; [exact Hhi|].
  rewrite <- Hx. reflexivity.
Qed.

(** * The benchmark harness *)

Module BenchmarkFacts.

Import Benchmark.

(** ** The [result] dictionary *)

Section DictFacts.

Variable P : Type.

Lemma lookup_replace (k k' : string) (l : list (value P)) (d : dict P) :
  lookup k (replace k' l d) =
  if String.eqb k k' then
    match lookup k d with Some _ => Some l | None => None end
  else lookup k d.
Proof.
  induction d as [|[k0 l0] d IH]; simpl.
  - now destruct (String.eqb k k').
  - destruct (String.eqb_spec k' k0) as [->|Hk'0]; simpl.
    + destruct (String.eqb_spec k k0) as [->|Hk0]; reflexivity.
    + destruct (String.eqb_spec k k0) as [->|Hk0].
      * destruct (String.eqb_spec k0 k') as [->|_]; [congruence|reflexivity].
      * exact IH.
Qed.

Lemma lookup_new_key (k k' : string) (l : list (value P)) (d : dict P) :
  lookup k (d ++ [(k', l)]) =
  match lookup k d with
  | Some l0 => Some l0
  | None => if String.eqb k k' then Some l else None
  end.
Proof.
  induction d as [|[k0 l0] d IH]; simpl; [reflexivity|].
  now destruct (String.eqb k k0).
Qed.

Lemma lookup_record (k k' : string) (v : value P) (d : dict P) :
  lookup k (record_value k' v d) =
  if String.eqb k k' then
    Some (match lookup k d with Some l => l ++ [v] | None => [v] end)
  else lookup k d.
Proof.
  unfold record_value.
  destruct (String.eqb_spec k k') as [->|Hkk'].
  - destruct (lookup k' d) as [l|] eqn:Hl.
    + now rewrite lookup_replace, String.eqb_refl, Hl.
    + now rewrite lookup_new_key, Hl, String.eqb_refl.
  - apply String.eqb_neq in Hkk'.
    destruct (lookup k' d) as [l|] eqn:Hl.
    + now rewrite lookup_replace, Hkk'.
    + rewrite lookup_new_key, Hkk'. now destruct (lookup k d).
Qed.

Lemma entries_record (k k' : string) (v : value P) (d : dict P) :
  entries k (record_value k' v d) =
  if String.eqb k k' then S (entries k d) else entries k d.
Proof.
  unfold entries. rewrite lookup_record.
  destruct (String.eqb k k'); [|reflexivity].
  destruct (lookup k d); simpl; [|reflexivity].
  rewrite length_app. simpl. lia.
Qed.

Lemma entries_record_tracked (metrics : list string) (k k' : string)
  (v : value P) (d : dict P) :
  String.eqb k k' = false ->
  entries k (record_tracked metrics k' v d) = entries k d.
Proof.
  intros Hkk'. unfold record_tracked. destruct (tracked metrics k'); auto.
  now rewrite entries_record, Hkk'.
Qed.

Lemma entries_bump_nit (plus_one : P -> P) (k : string) (d d' : dict P) :
  String.eqb k "nit" = false ->
  bump_nit plus_one d = Done d' -> entries k d' = entries k d.
Proof.
  intros Hk. unfold bump_nit, entries.
  destruct (lookup "nit" d) as [[|[|n|p] l]|]; try discriminate;
    intros Heq; injection Heq as <-.
  - now rewrite lookup_replace, Hk.
  - now rewrite lookup_replace, Hk.
  - rewrite lookup_new_key, Hk. now destruct (lookup k d).
Qed.

End DictFacts.

(** ** The two loops of [__run_solver] *)

Section HarnessFacts.

Variables P St E : Type.
Variable py_lt : value P -> value P -> bool.
Variable is_float : P -> bool.
Variables array1 plus_one : P -> P.
Variable clock : E -> P * E.
Variable minus : P -> P -> P.
Variable problem_f : value P -> E -> value P * E.
Variable problem_grad : option (value P -> E -> value P * E).
Variable jax_grad_f : value P -> E -> value P * E.
Variable metrics : list string.
Variable customs : list (custom_metric P E).

Local Abbreviation the_pass :=
  (loop_pass is_float array1 plus_one clock minus metrics).
Local Abbreviation the_loop :=
  (main_loop py_lt is_float array1 plus_one clock minus metrics).
Local Abbreviation the_final_pass :=
  (final_pass problem_f problem_grad jax_grad_f metrics customs).
Local Abbreviation the_final_loop :=
  (final_loop problem_f problem_grad jax_grad_f metrics customs).
Local Abbreviation the_run :=
  (run_solver py_lt is_float array1 plus_one clock minus problem_f
     problem_grad jax_grad_f metrics customs).

(** A pass of the main loop records one more iterate, and nothing under
    ["f"]. *)
Lemma loop_pass_entries (s : solver P St E) (count_calls : bool)
  (start_time : P) (ls ls' : loop_state P St) (w w' : world E) :
  the_pass s count_calls start_time ls w = Done (ls', w') ->
  entries "x" (result ls') = S (entries "x" (result ls)) /\
  entries "f" (result ls') = entries "f" (result ls) /\
  iters_total ls' = iters_total ls.
Proof.
  unfold loop_pass.
  destruct (bump_nit plus_one _) as [result2|err] eqn:Hbump; [|discriminate].
  destruct (if is_custom s || count_calls then _ else _) as [[sol2 st2] w1].
  destruct (tracked metrics "time").
  - destruct (clock (ext w1)) as [now e].
    intros Heq. injection Heq as <- <-. simpl.
    rewrite !entries_record. simpl.
    rewrite !entries_record_tracked by reflexivity.
    rewrite (entries_bump_nit P plus_one "x"%string _ _ eq_refl Hbump).
    rewrite (entries_bump_nit P plus_one "f"%string _ _ eq_refl Hbump).
    rewrite !entries_record. simpl. auto.
  - intros Heq. injection Heq as <- <-. simpl.
    rewrite !entries_record_tracked by reflexivity.
    rewrite (entries_bump_nit P plus_one "x"%string _ _ eq_refl Hbump).
    rewrite (entries_bump_nit P plus_one "f"%string _ _ eq_refl Hbump).
    rewrite !entries_record. simpl. auto.
Qed.

(** The main loop either makes all its passes, or leaves through a
    [break] with [iters_total] one above the number of iterates it has
    recorded. *)
Lemma main_loop_entries (s : solver P St E) (count_calls : bool)
  (start_time : P) (tol : value P) :
  forall (n i : nat) (ls ls' : loop_state P St) (w w' : world E),
  the_loop s count_calls start_time tol n i ls w = Done (ls', w') ->
  entries "x" (result ls) = i ->
  iters_total ls = (if i <=? 1 then 0 else i) ->
  entries "f" (result ls') = entries "f" (result ls) /\
  ((entries "x" (result ls') = i + n /\
    iters_total ls' = (if i + n <=? 1 then 0 else i + n)) \/
   (entries "x" (result ls') < i + n /\
    iters_total ls' = S (entries "x" (result ls')))).
Proof.
  induction n as [|n IH]; intros i ls ls' w w'; simpl.
  - intros Heq Hx Ht. injection Heq as <- <-.
    rewrite Nat.add_0_r. auto.
  - destruct i as [|i].
    + destruct (the_pass s count_calls start_time ls w) as [[ls1 w1]|err]
        eqn:Hpass; [|discriminate].
      intros Hloop Hx Ht.
      destruct (loop_pass_entries _ _ _ _ _ _ _ Hpass) as (Hx1 & Hf1 & Ht1).
      destruct (IH 1 ls1 ls' w1 w' Hloop) as (Hf & Hcases).
      * rewrite Hx1, Hx. reflexivity.
      * rewrite Ht1, Ht. reflexivity.
      * split; [congruence|exact Hcases].
    + destruct (stops py_lt s tol _ w) as [stop w1] eqn:Hstop.
      destruct stop.
      * intros Heq Hx Ht. injection Heq as <- <-. simpl.
        split; [reflexivity|]. right. rewrite Hx. split; lia.
      * destruct (the_pass s count_calls start_time _ w1) as [[ls1 w2]|err]
          eqn:Hpass; [|discriminate].
        intros Hloop Hx Ht.
        destruct (loop_pass_entries _ _ _ _ _ _ _ Hpass) as (Hx1 & Hf1 & Ht1).
        simpl in Hx1, Hf1, Ht1.
        destruct (IH (S (S i)) ls1 ls' w2 w' Hloop) as (Hf & Hcases).
        -- rewrite Hx1, Hx. reflexivity.
        -- rewrite Ht1. simpl. lia.
        -- split; [congruence|].
           replace (S i + S n) with (S (S i) + n) by lia. exact Hcases.
Qed.

Lemma custom_metrics_entries (k : string) (i : nat) (v : value P) :
  forall (ms : list (custom_metric P E)) (d d' : dict P) (e e' : E),
  (forall m, In m ms -> label m <> k) ->
  custom_metrics i v ms d e = Done (d', e') ->
  entries k d' = entries k d.
Proof.
  induction ms as [|m ms IH]; intros d d' e e' Hlabels; simpl.
  - intros Heq. now injection Heq as <- _.
  - destruct (step m =? 0)%Z; [discriminate|].
    assert (Hm : String.eqb k (label m) = false).
    { apply String.eqb_neq. intros Heq.
      apply (Hlabels m (or_introl eq_refl)). now symmetry. }
    assert (Hms : forall m', In m' ms -> label m' <> k)
      by (intros m' Hin; apply Hlabels; now right).
    destruct (Z.of_nat i mod step m =? 0)%Z.
    + destruct (func m v e) as [c e1]. intros Hrec.
      rewrite (IH _ _ _ _ Hms Hrec). now rewrite entries_record, Hm.
    + now apply IH.
Qed.

Lemma custom_metrics_total (i : nat) (v : value P) :
  forall (ms : list (custom_metric P E)) (d : dict P) (e : E),
  (forall m, In m ms -> step m <> 0%Z) ->
  exists d' e', custom_metrics i v ms d e = Done (d', e').
Proof.
  induction ms as [|m ms IH]; intros d e Hsteps; simpl.
  - now eexists; eexists.
  - destruct (Z.eqb_spec (step m) 0) as [Hz|_].
    + exfalso. exact (Hsteps m (or_introl eq_refl) Hz).
    + assert (Hms : forall m', In m' ms -> step m' <> 0%Z)
        by (intros m' Hin; apply Hsteps; now right).
      destruct (Z.of_nat i mod step m =? 0)%Z.
      * destruct (func m v e) as [c e1]. now apply IH.
      * now apply IH.
Qed.

(** A pass of the final loop needs the iterate of its index, leaves the
    iterates alone and records the objective when it is tracked. *)
Lemma final_pass_entries (i : nat) (d d' : dict P) (e e' : E) :
  (forall m, In m customs -> label m <> "x"%string /\ label m <> "f"%string) ->
  the_final_pass i d e = Done (d', e') ->
  i < entries "x" d /\
  entries "x" d' = entries "x" d /\
  entries "f" d' = entries "f" d + (if tracked metrics "f" then 1 else 0).
Proof.
  intros Hlabels. unfold final_pass, entries at 1.
  destruct (lookup "x" d) as [xs|] eqn:Hxs; [|discriminate].
  destruct (nth_error xs i) as [v|] eqn:Hnth; [|discriminate].
  assert (Hi : i < length xs) by (apply nth_error_Some; congruence).
  destruct (if tracked metrics "f" then _ else _) as [d1 e1] eqn:Hf.
  destruct (if tracked metrics "grad" then _ else _) as [d2 e2] eqn:Hg.
  intros Hcustom.
  assert (Hx2 : entries "x" d2 = entries "x" d /\
                entries "f" d2 =
                  entries "f" d + (if tracked metrics "f" then 1 else 0)).
  { assert (Hd1 : entries "x" d1 = entries "x" d /\
                  entries "f" d1 =
                    entries "f" d + (if tracked metrics "f" then 1 else 0)).
    { destruct (tracked metrics "f").
      - destruct (problem_f v e) as [y e0]. injection Hf as <- _.
        rewrite !entries_record. simpl. split; lia.
      - injection Hf as <- _. split; lia. }
    destruct Hd1 as (Hd1x & Hd1f).
    destruct (tracked metrics "grad").
    - destruct (match problem_grad with
                | Some grad => grad v e1
                | None => jax_grad_f v e1
                end) as [g e0].
      injection Hg as <- _. rewrite !entries_record. simpl. split; lia.
    - injection Hg as <- _. split; assumption. }
  destruct Hx2 as (Hx2 & Hf2).
  split; [exact Hi|]. split.
  - rewrite (custom_metrics_entries "x" i v customs _ _ _ _
               (fun m Hin => proj1 (Hlabels m Hin)) Hcustom).
    exact Hx2.
  - rewrite (custom_metrics_entries "f" i v customs _ _ _ _
               (fun m Hin => proj2 (Hlabels m Hin)) Hcustom).
    exact Hf2.
Qed.

Lemma final_loop_entries :
  (forall m, In m customs -> label m <> "x"%string /\ label m <> "f"%string) ->
  forall (n i : nat) (d d' : dict P) (e e' : E),
  the_final_loop n i d e = Done (d', e') ->
  (0 < n -> i + n <= entries "x" d) /\
  entries "x" d' = entries "x" d /\
  entries "f" d' = entries "f" d + (if tracked metrics "f" then n else 0).
Proof.
  intros Hlabels. induction n as [|n IH]; intros i d d' e e'; simpl.
  - intros Heq. injection Heq as <- _.
    destruct (tracked metrics "f"); split; try split; lia.
  - destruct (the_final_pass i d e) as [[d1 e1]|err] eqn:Hpass; [|discriminate].
    intros Hloop.
    destruct (final_pass_entries i d _ e _ Hlabels Hpass) as (Hi & Hx1 & Hf1).
    destruct (IH (S i) d1 d' e1 e' Hloop) as (Hle & Hx & Hf).
    rewrite Hx, Hf, Hx1, Hf1 in *.
    destruct (tracked metrics "f"); split; try split; try lia;
      intros _; destruct n; lia.
Qed.

Lemma prologue_state (s : solver P St E) (x_init : value P)
  (kwargs_tol : option (value P)) (w : world E) :
  result (fst (fst (fst (prologue clock s x_init kwargs_tol w)))) = [] /\
  iters_total (fst (fst (fst (prologue clock s x_init kwargs_tol w)))) = 0.
Proof.
  unfold prologue.
  destruct (init_state s x_init _) as [state0 w1].
  destruct (clock (ext w1)) as [start_time e]. simpl. auto.
Qed.

Lemma final_pass_keeps_iterates (i : nat) (d d' : dict P) (e e' : E) :
  (forall m, In m customs -> label m <> "x"%string) ->
  the_final_pass i d e = Done (d', e') ->
  entries "x" d' = entries "x" d.
Proof.
  intros Hlabels. unfold final_pass.
  destruct (lookup "x" d) as [xs|] eqn:Hxs; [|discriminate].
  destruct (nth_error xs i) as [v|] eqn:Hnth; [|discriminate].
  destruct (if tracked metrics "f" then _ else _) as [d1 e1] eqn:Hf.
  destruct (if tracked metrics "grad" then _ else _) as [d2 e2] eqn:Hg.
  intros Hcustom.
  rewrite (custom_metrics_entries "x" i v customs _ _ _ _ Hlabels Hcustom).
  assert (Hd1 : entries "x" d1 = entries "x" d).
  { destruct (tracked metrics "f").
    - destruct (problem_f v e) as [y e0]. injection Hf as <- _.
      now rewrite entries_record.
    - now injection Hf as <- _. }
  destruct (tracked metrics "grad").
  - destruct (match problem_grad with
              | Some grad => grad v e1
              | None => jax_grad_f v e1
              end) as [g e0].
    injection Hg as <- _. now rewrite entries_record.
  - now injection Hg as <- _.
Qed.

Lemma final_pass_total (i : nat) (d : dict P) (e : E) :
  (forall m, In m customs -> step m <> 0%Z) ->
  i < entries "x" d ->
  exists d' e', the_final_pass i d e = Done (d', e').
Proof.
  intros Hsteps. unfold final_pass, entries.
  destruct (lookup "x" d) as [xs|]; [|simpl; lia].
  intros Hi. destruct (nth_error xs i) as [v|] eqn:Hnth.
  - destruct (if tracked metrics "f" then _ else _) as [d1 e1].
    destruct (if tracked metrics "grad" then _ else _) as [d2 e2].
    now apply custom_metrics_total.
  - apply nth_error_None in Hnth. lia.
Qed.

Lemma final_pass_index_error (i : nat) (d : dict P) (e : E) :
  0 < entries "x" d -> entries "x" d <= i ->
  the_final_pass i d e = Failed IndexError.
Proof.
  unfold final_pass, entries.
  destruct (lookup "x" d) as [xs|]; [|simpl; lia].
  intros _ Hi. apply nth_error_None in Hi. now rewrite Hi.
Qed.

(** X20.  A call of [__run_solver] that returns has made all its
    [maxiter] passes: one iterate is recorded under ["x"] per pass, and the
    objective, when tracked, is recorded once per iterate, except that a
    single pass ([maxiter = 1]) leaves no objective value at all.  A run
    that left its main loop through a stop criterion does not return. *)
Theorem run_solver_returns_complete (s : solver P St E) (x_init : value P)
  (kwargs_tol : option (value P)) (w w' : world E) (d : dict P) :
  (forall m, In m customs -> label m <> "x"%string /\ label m <> "f"%string) ->
  the_run s x_init kwargs_tol w = Done (d, w') ->
  entries "x" d = Z.to_nat (maxiter s) /\
  entries "f" d =
    (if tracked metrics "f"
     then if Z.to_nat (maxiter s) <=? 1 then 0 else Z.to_nat (maxiter s)
     else 0).
Proof.
  intros Hlabels. unfold run_solver.
  pose proof (prologue_state s x_init kwargs_tol w) as (Hres & Htot).
  destruct (prologue clock s x_init kwargs_tol w) as [[[ls0 t0] tol] w0].
  simpl in Hres, Htot.
  destruct (the_loop s _ t0 tol (Z.to_nat (maxiter s)) 0 ls0 w0)
    as [[ls w1]|err] eqn:Hloop; [|discriminate].
  destruct (the_final_loop (iters_total ls) 0 (result ls) (ext w1))
    as [[d1 e1]|err] eqn:Hfinal; [|discriminate].
  intros Heq. injection Heq as <- _.
  destruct (main_loop_entries _ _ _ _ _ _ _ _ _ _ Hloop) as (Hf & Hcases).
  { now rewrite Hres. }
  { now rewrite Htot. }
  destruct (final_loop_entries Hlabels _ _ _ _ _ _ Hfinal) as (Hle & Hx & Hf1).
  rewrite Hx, Hf1, Hf, Hres. unfold entries at 2. simpl.
  destruct Hcases as [(Hall & Ht)|(Hearly & Ht)].
  - simpl in Hall, Ht. rewrite Ht. split; [exact Hall|reflexivity].
  - exfalso. rewrite Ht in Hle. simpl in Hle. lia.
Qed.

(** X21.  When the stop criterion of a [jaxopt] solver holds at the head
    of the second pass, [__run_solver] raises [IndexError]: the loop is left
    with one iterate recorded and [iters_total = 2], and the final loop
    reads [result["x"][1]]. *)
Theorem run_solver_early_stop_raises (s : solver P St E) (x_init : value P)
  (kwargs_tol : option (value P)) (w w0 w1 : world E)
  (ls0 ls1 : loop_state P St) (start_time : P) (tol : value P) :
  is_custom s = false ->
  (2 <= maxiter s)%Z ->
  (forall m, In m customs -> label m <> "x"%string /\ step m <> 0%Z) ->
  prologue clock s x_init kwargs_tol w = ((ls0, start_time, tol), w0) ->
  the_pass s
    (tracked metrics "nfev" || tracked metrics "njev" || tracked metrics "nhev")
    start_time ls0 w0 = Done (ls1, w1) ->
  py_lt (error_of s (state ls1)) tol = true ->
  the_run s x_init kwargs_tol w = Failed IndexError.
Proof.
  intros Hjax Hmax Hcustoms Hpro Hpass Hstop. unfold run_solver.
  pose proof (prologue_state s x_init kwargs_tol w) as (Hres & _).
  rewrite Hpro in *. simpl in Hres.
  destruct (Z.to_nat (maxiter s)) as [|[|n]] eqn:Hn; try lia.
  simpl main_loop. rewrite Hpass. unfold stops. simpl.
  rewrite Hjax, Hstop. simpl.
  destruct (loop_pass_entries _ _ _ _ _ _ _ Hpass) as (Hx1 & _).
  rewrite Hres in Hx1. unfold entries at 2 in Hx1. simpl in Hx1.
  destruct (final_pass_total 0 (result ls1) (ext w1)
              (fun m Hin => proj2 (Hcustoms m Hin))) as (d1 & e1 & Hfirst);
    [lia|].
  rewrite Hfirst.
  pose proof (final_pass_keeps_iterates 0 (result ls1) d1 (ext w1) e1
                (fun m Hin => proj1 (Hcustoms m Hin)) Hfirst) as Hkeep.
  rewrite final_pass_index_error; [reflexivity|lia|lia].
Qed.

End HarnessFacts.

(** [halving_solver] from 8 with no tolerance: three passes, all made. *)
Lemma run_solver_returns_complete_witness :
  exists d w',
    BenchmarkExample.run_halving ["f"%string] 3 8 None = Done (d, w') /\
    entries "x" d = 3 /\ entries "f" d = 3.
Proof.
  eexists. eexists. split; [vm_compute; reflexivity|].
  exact (run_solver_returns_complete Z Z unit BenchmarkExample.less
           (fun _ => false) (fun p => p) (fun p => (p + 1)%Z)
           (fun e => (0%Z, e)) Z.sub (fun v e => (v, e)) None
           (fun v e => (v, e)) ["f"%string] []
           (BenchmarkExample.halving_solver 3) (VPy 8%Z) None
           (mk_world 0 0 0 tt) _ _
           (fun m (Hin : In m []) => match Hin with end)
           ltac:(vm_compute; reflexivity)).
Defined.

(** [halving_solver] from 1 with [tol = 1]: the error after the first
    update is 0, the loop stops at the head of the second pass. *)
Lemma run_solver_early_stop_raises_witness :
  BenchmarkExample.run_halving ["f"%string] 5 1 (Some (VInt 1))
  = Failed IndexError.
Proof.
  unfold BenchmarkExample.run_halving.
  eapply run_solver_early_stop_raises.
  - reflexivity.
  - simpl. lia.
  - intros m [].
  - vm_compute. reflexivity.
  - vm_compute. reflexivity.
  - vm_compute. reflexivity.
Defined.

End BenchmarkFacts.

(** * The solution of the descent drivers *)

Section SolutionFacts.

Context {F V : Type} `{Scalar F} `{Vector F V}.

Lemma descent_loop_solution (step df : V -> V) (accuracy : F) (flag : bool)
  (accept_test : option ((V -> V) -> V -> F -> bool)) :
  forall (n : nat) (s : @gd_state V),
  exists k,
    gd_nit (descent_loop step df accuracy flag accept_test n s)
    = gd_nit s + k /\
    gd_x (descent_loop step df accuracy flag accept_test n s)
    = iterate step k (gd_x s).
Proof.
  induction n as [|n IH]; intro s; simpl.
  - exists 0. split; [lia|reflexivity].
  - destruct (gd_record_counters flag s) as (_ & _ & _ & Hi).
    destruct (accepted _ _ _ _); simpl.
    + exists 0. rewrite gd_record_x. split; [lia|reflexivity].
    + match goal with |- context [descent_loop _ _ _ _ _ n ?s0] =>
        destruct (IH s0) as (k & Hk & Hx) end.
      simpl in Hk, Hx. exists (S k). rewrite Hk, Hx, gd_record_x, Hi.
      split; [lia|]. now rewrite iterate_shift.
Qed.

End SolutionFacts.

(** X22.  The solution returned by either descent driver is the starting
    point updated [nit] times: [x = x_nit] with [x_0 = x0] and
    [x_(i+1) = step x_i], however the loop ended, and the returned [fun]
    and [jac] are [f] and [df] at that point. *)
Theorem descent_solution_is_iterate {F V : Type} `{Scalar F} `{Vector F V}
  (m : @method F) (f : V -> F) (df : V -> V) (x0 : V) (max_steps : Z)
  (accuracy : F) (flag : bool)
  (accept_test : option ((V -> V) -> V -> F -> bool)) :
  let r := descent m f df x0 max_steps accuracy flag accept_test in
  let x_nit := iterate (method_step m f df) (OptimizeResults.nit r) x0 in
  OptimizeResults.x r = x_nit /\
  OptimizeResults.fun_ r = f x_nit /\
  OptimizeResults.jac r = Some (df x_nit).
Proof.
  intros r x_nit. unfold x_nit, r. rewrite descent_loops.
  unfold gd_result; simpl.
  destruct (descent_loop_solution (method_step m f df) df accuracy flag
              accept_test (Z.to_nat max_steps) (gd_init x0)) as (k & Hk & Hx).
  simpl in Hk, Hx. rewrite Hk, Hx. auto.
Qed.
